(** * JGbackend: the product catalogue and login routes

    A shallow embedding of the two Express servers of the repository:

    - [Local]: [src/server.js], which keeps uploaded images on the local disk
      (multer's [diskStorage]);
    - [Cloud]: the second server file ([src/unnamed/part_000]), which keeps
      request files in memory and forwards them to Cloudinary.

    Each route handler is a function from the state of the world before the
    request (the two MongoDB collections and the blob store) and the request
    to the HTTP response and the state afterwards.  The library calls the
    handlers make ([parseFloat], [isNaN], Mongoose queries, multer,
    [jwt.sign], [bcrypt.compare]) are modelled next to them.

    What the model takes as given:
    - the text fields of a product form are strings or absent, and the
      login fields are strings;
    - the database is reachable: a query throws only when Mongoose cannot
      cast the [_id] of its filter;
    - a new document gets an [_id] that is not in the collection;
    - writing an uploaded file to the local disk does not fail, whereas
      Cloudinary may answer an upload with an error, as the callback of
      [uploadToCloudinary] provides for;
    - [bcrypt.compare] is a parameter of the login handlers.  *)

From Stdlib Require Import ZArith List Ascii String Bool Lia.
From Stdlib Require Import Floats.SpecFloat.
From stdpp Require Import base decidable option list strings pretty gmap
  fin_maps sorting infinite.

Local Open Scope string_scope.
Local Open Scope Z_scope.

(** ** JavaScript numbers and [parseFloat] *)

(** A JavaScript Number is an IEEE 754 binary64 value. *)
Module JS.

Definition number : Type := spec_float.

Definition prec : Z := 53.
Definition emax : Z := 1024.

Definition NaN : number := S754_nan.
Definition Infinity : number := S754_infinity false.

(** [isNaN(x)] on a Number. *)
Definition isNaN (x : number) : bool :=
  match x with
  | S754_nan => true
  | _ => false
  end.

(** [isFinite(x)]. *)
Definition isFinite (x : number) : bool :=
  match x with
  | S754_zero _ | S754_finite _ _ _ => true
  | _ => false
  end.

(** [x >= 0] ([-0 >= 0] is true, every comparison with NaN is false). *)
Definition nonNegative (x : number) : bool :=
  match x with
  | S754_zero _ => true
  | S754_finite s _ _ => negb s
  | S754_infinity s => negb s
  | S754_nan => false
  end.

(** *** Decimal digits *)

Definition digit_of (c : ascii) : option N :=
  let n := N_of_ascii c in
  if ((48 <=? n) && (n <=? 57))%N then Some (n - 48)%N else None.

(** The longest run of decimal digits at the start of [s], and the rest. *)
Fixpoint read_digits (s : string) : list N * string :=
  match s with
  | String c s' =>
      match digit_of c with
      | Some d => let '(ds, r) := read_digits s' in (d :: ds, r)
      | None => ([], s)
      end
  | EmptyString => ([], s)
  end.

Definition digits_value (ds : list N) : N :=
  fold_left (fun acc d => (10 * acc + d)%N) ds 0%N.

(** *** White space (TrimString, start)

    A field is the UTF-8 text of the request; the WhiteSpace and
    LineTerminator code points are matched by their UTF-8 encodings. *)

Definition is_ws1 (c : ascii) : bool :=
  let n := N_of_ascii c in
  ((9 <=? n) && (n <=? 13) || (n =? 32))%N.

(** U+00A0. *)
Definition is_ws2 (c1 c2 : ascii) : bool :=
  ((N_of_ascii c1 =? 194) && (N_of_ascii c2 =? 160))%N.

(** U+1680, U+2000..U+200A, U+2028, U+2029, U+202F, U+205F, U+3000, U+FEFF. *)
Definition is_ws3 (c1 c2 c3 : ascii) : bool :=
  let a := N_of_ascii c1 in
  let b := N_of_ascii c2 in
  let c := N_of_ascii c3 in
  ((a =? 225) && (b =? 154) && (c =? 128)
   || (a =? 226) && (b =? 128)
      && ((128 <=? c) && (c <=? 138) || (c =? 168) || (c =? 169) || (c =? 175))
   || (a =? 226) && (b =? 129) && (c =? 159)
   || (a =? 227) && (b =? 128) && (c =? 128)
   || (a =? 239) && (b =? 187) && (c =? 191))%N.

Fixpoint trimStart (s : string) : string :=
  match s with
  | String c1 s1 =>
      if is_ws1 c1 then trimStart s1
      else
        match s1 with
        | String c2 s2 =>
            if is_ws2 c1 c2 then trimStart s2
            else
              match s2 with
              | String c3 s3 => if is_ws3 c1 c2 c3 then trimStart s3 else s
              | EmptyString => s
              end
        | EmptyString => s
        end
  | EmptyString => s
  end.

(** *** StrDecimalLiteral *)

(** The mathematical value of an unsigned literal: [Infinity], or
    [m * 10^e]. *)
Inductive MV : Type :=
  | MVInfinity
  | MVDecimal (m : N) (e : Z).

(** ExponentPart: [e] or [E], an optional sign and at least one digit;
    anything else is not part of the literal and counts as exponent 0. *)
Definition exponentPart (s : string) : Z :=
  match s with
  | String c r =>
      if (Ascii.eqb c "e" || Ascii.eqb c "E")%bool then
        let '(neg, r') :=
          match r with
          | String "+" r1 => (false, r1)
          | String "-" r1 => (true, r1)
          | _ => (false, r)
          end in
        match fst (read_digits r') with
        | [] => 0
        | ds => let v := Z.of_N (digits_value ds) in if neg then - v else v
        end
      else 0
  | EmptyString => 0
  end.

(** The longest prefix of [s] that is a StrUnsignedDecimalLiteral, if any. *)
Definition strUnsignedDecimalLiteral (s : string) : option MV :=
  if String.prefix "Infinity" s then Some MVInfinity
  else
    let '(ip, r1) := read_digits s in
    let '(fp, r2) :=
      match r1 with
      | String "." r => read_digits r
      | _ => ([], r1)
      end in
    match (ip ++ fp)%list with
    | [] => None
    | ds =>
        Some (MVDecimal (digits_value ds)
                (exponentPart r2 - Z.of_nat (List.length fp)))
    end.

(** *** Rounding a decimal to binary64 (round to nearest, ties to even) *)

Definition roundMV (neg : bool) (m : N) (e : Z) : number :=
  match m with
  | N0 => S754_zero neg
  | Npos p =>
      if 0 <=? e then
        binary_normalize prec emax (cond_Zopp neg (Zpos p * 10 ^ e)) 0 neg
      else
        let d := 10 ^ (- e) in
        let k := 64 + Z.log2_up d in
        let '(q, r) := Z.div_eucl (Zpos p * 2 ^ k) d in
        binary_round_aux prec emax neg q (- k) (new_location d r)
  end.

Definition numericValue (neg : bool) (v : option MV) : number :=
  match v with
  | None => NaN
  | Some MVInfinity => S754_infinity neg
  | Some (MVDecimal m e) => roundMV neg m e
  end.

(** [parseFloat(v)] for a request field [v]: a string, or [undefined] when
    the field is absent ([ToString(undefined)] is ["undefined"]). *)
Definition parseFloat (v : option string) : number :=
  let inputString := match v with Some s => s | None => "undefined" end in
  let trimmed := trimStart inputString in
  match trimmed with
  | String "+" r => numericValue false (strUnsignedDecimalLiteral r)
  | String "-" r => numericValue true (strUnsignedDecimalLiteral r)
  | _ => numericValue false (strUnsignedDecimalLiteral trimmed)
  end.

End JS.

(** ** Documents, collections and the blob store *)

(** A MongoDB ObjectId, as a number.  The path parameter of a request is a
    string; Mongoose casts it, and the cast succeeds on 24 hexadecimal
    digits. *)
Definition ObjectId : Type := N.

Definition hex_digit (c : ascii) : option N :=
  let n := N_of_ascii c in
  if ((48 <=? n) && (n <=? 57))%N then Some (n - 48)%N
  else if ((97 <=? n) && (n <=? 102))%N then Some (n - 87)%N
  else if ((65 <=? n) && (n <=? 70))%N then Some (n - 55)%N
  else None.

Fixpoint hex_value (acc : N) (s : string) : option N :=
  match s with
  | EmptyString => Some acc
  | String c s' =>
      match hex_digit c with
      | Some d => hex_value (16 * acc + d)%N s'
      | None => None
      end
  end.

Definition castObjectId (s : string) : option ObjectId :=
  if (String.length s =? 24)%nat then hex_value 0%N s else None.

(** [productSchema].  A path that was never set is absent from the document
    ([None]); [date] defaults to [Date.now] when the document is built.
    [server.js] has no [category] path. *)
Module Product.
Record t : Type := mk {
  name : option string;
  description : option string;
  price : option JS.number;
  category : option string;
  image : option string;
  date : Z
}.
End Product.

(** [userSchema]; [password] holds the bcrypt hash. *)
Module User.
Record t : Type := mk {
  _id : ObjectId;
  username : option string;
  email : string;
  password : string
}.
End User.

(** A stored blob: the directory or folder it was put in, and its bytes. *)
Record Blob : Type := mkBlob {
  folder : string;
  content : list Byte.byte
}.

(** The state the handlers act on: the [products] collection keyed by
    [_id], the [users] collection in insertion order, and the blob store
    (the [uploads] directory of [server.js], the Cloudinary account of the
    second server) keyed by the reference under which a blob is served. *)
Record World : Type := mkWorld {
  products : gmap ObjectId Product.t;
  users : list User.t;
  blobs : gmap string Blob
}.

Definition set_products (f : gmap ObjectId Product.t -> gmap ObjectId Product.t)
    (w : World) : World :=
  {| products := f (products w); users := users w; blobs := blobs w |}.

Definition set_blobs (f : gmap string Blob -> gmap string Blob)
    (w : World) : World :=
  {| products := products w; users := users w; blobs := f (blobs w) |}.

Definition set_users (f : list User.t -> list User.t) (w : World) : World :=
  {| products := products w; users := f (users w); blobs := blobs w |}.

(** A product document as the driver returns it: its [_id] and its paths. *)
Definition Doc : Type := ObjectId * Product.t.

(** ** Requests and responses *)

(** The text fields of a product form; [None] is a field the request does
    not carry ([undefined] after destructuring [req.body]). *)
Record Fields : Type := mkFields {
  f_name : option string;
  f_description : option string;
  f_price : option string;
  f_category : option string
}.

(** The file part sent under the field [image]. *)
Record FilePart : Type := mkFilePart {
  originalname : string;
  buffer : list Byte.byte
}.

Record ProductRequest : Type := mkProductRequest {
  req_body : Fields;
  req_image : option FilePart
}.

Record LoginRequest : Type := mkLoginRequest {
  login_email : string;
  login_password : string
}.

(** A signed token: the claims [jwt.sign] puts in the payload and the key
    the signature was made with (the HMAC itself is not modelled). *)
Record Token : Type := mkToken {
  tok_userId : ObjectId;
  tok_iat : Z;
  tok_exp : Z;
  tok_key : string
}.

(** The payload [jwt.decode] reads back from a token. *)
Record Payload : Type := mkPayload {
  userId : ObjectId;
  iat : Z;
  exp : Z
}.

Definition jwt_decode (t : Token) : Payload :=
  {| userId := tok_userId t; iat := tok_iat t; exp := tok_exp t |}.

Inductive Json : Type :=
  | JError (error : string)
  | JMessage (message : string)
  | JProduct (doc : Doc)
  | JProducts (docs : list Doc)
  | JLogin (token : Token) (id : ObjectId) (username : option string).

Record Response : Type := mkResponse {
  status : Z;
  body : Json
}.

(** [res.status(c).json(b)] and [res.json(b)]. *)
Definition status_json (c : Z) (b : Json) : Response :=
  {| status := c; body := b |}.
Definition json (b : Json) : Response := status_json 200 b.

(** ** Awaited calls: state and exceptions *)

Inductive Exn : Type :=
  | CastError (path value : string)
  | UploadFailure (message : string)
  | JwtError (message : string).

Inductive Result (A : Type) : Type :=
  | Ok (a : A)
  | Throw (e : Exn).
Arguments Ok {A} a.
Arguments Throw {A} e.

(** A computation that reads and writes the world and may throw. *)
Definition M (A : Type) : Type := World -> Result A * World.

#[global] Instance M_ret : MRet M := fun A a w => (Ok a, w).
#[global] Instance M_bind : MBind M := fun A B f m w =>
  match m w with
  | (Ok a, w') => f a w'
  | (Throw e, w') => (Throw e, w')
  end.

Definition throw {A : Type} (e : Exn) : M A := fun w => (Throw e, w).
Definition get_world : M World := fun w => (Ok w, w).
Definition modify (f : World -> World) : M unit := fun w => (Ok tt, f w).

(** [try { body } catch (err) { handler }] around a handler body. *)
Definition try_catch (body : M Response) (handler : Exn -> Response)
    (w : World) : Response * World :=
  match body w with
  | (Ok r, w') => (r, w')
  | (Throw e, w') => (handler e, w')
  end.

(** An [async] handler without [try]: when the body throws, the handler
    sends no response. *)
Definition no_catch (body : M Response) (w : World)
    : option Response * World :=
  match body w with
  | (Ok r, w') => (Some r, w')
  | (Throw e, w') => (None, w')
  end.

(** ** Mongoose *)

(** [a] goes before [b] under [sort({ date: -1 })]. *)
Definition newer (a b : Doc) : Prop := Product.date b.2 <= Product.date a.2.

#[global] Instance newer_dec : RelDecision newer.
Proof. intros a b. unfold newer. apply _. Defined.

(** [Product.find().sort({ date: -1 })]. *)
Definition Product_find_sort : M (list Doc) :=
  w ← get_world;
  mret (merge_sort newer (map_to_list (products w))).

(** [new Product(paths)]: the document gets an [_id] no stored product has
    and, as [date], the time of construction. *)
Definition new_Product (now : Z)
    (name description : option string) (price : JS.number)
    (category : option string) (image : string) : M Doc :=
  w ← get_world;
  mret (fresh (dom (products w)),
        {| Product.name := name; Product.description := description;
           Product.price := Some price; Product.category := category;
           Product.image := Some image; Product.date := now |}).

(** [doc.save()] of a new document. *)
Definition save (d : Doc) : M unit :=
  modify (set_products (insert d.1 d.2)).

(** The query filter [{ _id: id }]: a value that does not cast to an
    ObjectId makes the query throw. *)
Definition cast_id (id : string) : M ObjectId :=
  match castObjectId id with
  | Some oid => mret oid
  | None => throw (CastError "_id" id)
  end.

(** The update object of [findByIdAndUpdate]; a key whose value is
    [undefined] is dropped from the update (Mongoose 6 and later), and a key
    that is not there (here [image] when no file was sent) leaves the path
    alone. *)
Record UpdateData : Type := mkUpdateData {
  u_name : option string;
  u_description : option string;
  u_price : option JS.number;
  u_category : option string;
  u_image : option string
}.

Definition set_path {A : Type} (new old : option A) : option A :=
  match new with
  | Some v => Some v
  | None => old
  end.

Definition apply_update (u : UpdateData) (p : Product.t) : Product.t :=
  {| Product.name := set_path (u_name u) (Product.name p);
     Product.description := set_path (u_description u) (Product.description p);
     Product.price := set_path (u_price u) (Product.price p);
     Product.category := set_path (u_category u) (Product.category p);
     Product.image := set_path (u_image u) (Product.image p);
     Product.date := Product.date p |}.

(** [Product.findByIdAndUpdate(id, update, { new: true })]: the updated
    document, or [null] when no product has this [_id]. *)
Definition findByIdAndUpdate (id : string) (u : UpdateData)
    : M (option Doc) :=
  oid ← cast_id id;
  w ← get_world;
  match products w !! oid with
  | Some p =>
      let p' := apply_update u p in
      _ ← modify (set_products (insert oid p'));
      mret (Some (oid, p'))
  | None => mret None
  end.

(** [Product.findByIdAndDelete(id)]: the deleted document, or [null]. *)
Definition findByIdAndDelete (id : string) : M (option Doc) :=
  oid ← cast_id id;
  w ← get_world;
  match products w !! oid with
  | Some p =>
      _ ← modify (set_products (delete oid));
      mret (Some (oid, p))
  | None => mret None
  end.

(** [User.findOne({ email })]. *)
Definition User_findOne (email : string) : M (option User.t) :=
  w ← get_world;
  mret (List.find (fun u => String.eqb (User.email u) email) (users w)).

(** The body of a registration request. *)
Record RegisterRequest : Type := mkRegisterRequest {
  reg_username : string;
  reg_email : string;
  reg_password : string
}.

(** [new User({ username, email, password })]: the document gets an [_id]
    no stored user has. *)
Definition new_User (username email password : string) : M User.t :=
  w ← get_world;
  mret {| User._id := fresh (User._id <$> users w);
          User.username := Some username;
          User.email := email;
          User.password := password |}.

(** [user.save()] of a new document.  The unique index the second server
    declares on [email] cannot fire in the handlers below: each of them
    saves only after [User.findOne] has found no user with that email. *)
Definition User_save (u : User.t) : M unit :=
  modify (set_users (fun us => (us ++ [u])%list)).

(** ** jsonwebtoken *)

(** The time spans [ms] reads that are a whole number followed by one of the
    short units; the result is in milliseconds. *)
Definition ms (s : string) : option Z :=
  match JS.read_digits s with
  | ([], _) => None
  | (ds, unit) =>
      let n := Z.of_N (JS.digits_value ds) in
      if String.eqb unit "" then Some n
      else if String.eqb unit "ms" then Some n
      else if String.eqb unit "s" then Some (n * 1000)
      else if String.eqb unit "m" then Some (n * 60000)
      else if String.eqb unit "h" then Some (n * 3600000)
      else if String.eqb unit "d" then Some (n * 86400000)
      else if String.eqb unit "w" then Some (n * 604800000)
      else if String.eqb unit "y" then Some (n * 31557600000)
      else None
  end.

(** [jwt.sign({ userId }, secretOrPrivateKey, { expiresIn })] at time [now]
    (milliseconds): [iat] is the time in seconds, [exp] is [iat] plus the
    span in seconds.  A missing or empty key throws. *)
Definition jwt_sign (uid : ObjectId) (secretOrPrivateKey : option string)
    (expiresIn : string) (now : Z) : M Token :=
  match secretOrPrivateKey with
  | None | Some "" => throw (JwtError "secretOrPrivateKey must have a value")
  | Some key =>
      match ms expiresIn with
      | None => throw (JwtError "invalid expiresIn option")
      | Some span =>
          let timestamp := now / 1000 in
          mret {| tok_userId := uid; tok_iat := timestamp;
                  tok_exp := timestamp + span / 1000; tok_key := key |}
      end
  end.

(** [process.env.X || fallback]: unset and empty are both falsy. *)
Definition env_or (v : option string) (fallback : string) : string :=
  match v with
  | None | Some "" => fallback
  | Some s => s
  end.

(** ** path.extname and multer's disk storage *)

(** The part of [s] from its last dot on. *)
Fixpoint from_last_dot (s : string) : option string :=
  match s with
  | EmptyString => None
  | String c r =>
      match from_last_dot r with
      | Some ext => Some ext
      | None => if Ascii.eqb c "." then Some s else None
      end
  end.

(** [path.extname] of a file name without directory part (the name of an
    uploaded file never has one): empty when there is no dot, when the only
    dot starts the name, and for [".."]. *)
Definition extname (s : string) : string :=
  match from_last_dot s with
  | None => ""
  | Some ext =>
      if (String.eqb ext s || String.eqb s "..")%bool then "" else ext
  end.

(** ** [server.js]: images on the local disk *)

Module Local.

(** [const JWT_SECRET = process.env.JWT_SECRET || "mysecret"]. *)
Definition JWT_SECRET (env_JWT_SECRET : option string) : string :=
  env_or env_JWT_SECRET "mysecret".

(** [req.file] as the disk storage leaves it. *)
Record DiskFile : Type := mkDiskFile {
  filename : string
}.

(** [upload.single("image")] with [multer.diskStorage]: a file part is
    written to [uploads/] under the name [Date.now() + extname] before the
    route handler runs; the directory is served under [/uploads]. *)
Definition upload_single (now : Z) (part : option FilePart) (w : World)
    : option DiskFile * World :=
  match part with
  | Some f =>
      let filename := pretty now +:+ extname (originalname f) in
      (Some {| filename := filename |},
       set_blobs (insert ("/uploads/" +:+ filename)
                    {| folder := "uploads/"; content := buffer f |}) w)
  | None => (None, w)
  end.

(** [POST /api/login]. *)
Definition login (bcrypt_compare : string -> string -> bool)
    (env_JWT_SECRET : option string) (now : Z) (req : LoginRequest)
    : World -> option Response * World :=
  no_catch (
    user ← User_findOne (login_email req);
    match user with
    | None => mret (status_json 400 (JError "Invalid credentials"))
    | Some user =>
        let match_ := bcrypt_compare (login_password req) (User.password user) in
        if negb match_ then mret (status_json 400 (JError "Wrong password"))
        else
          token ← jwt_sign (User._id user) (Some (JWT_SECRET env_JWT_SECRET))
                    "2h" now;
          mret (json (JLogin token (User._id user) (User.username user)))
    end).

(** [GET /api/products]. *)
Definition get_products : World -> option Response * World :=
  no_catch (
    products ← Product_find_sort;
    mret (json (JProducts products))).

(** The handler of [POST /api/products], after the upload middleware. *)
Definition post_products_handler (now : Z) (body : Fields)
    (file : option DiskFile) : World -> Response * World :=
  try_catch (
    let priceNumber := JS.parseFloat (f_price body) in
    if JS.isNaN priceNumber then
      mret (status_json 400 (JError "Price must be a valid number"))
    else
      let image :=
        match file with
        | Some f => "/uploads/" +:+ filename f
        | None => ""
        end in
      newProduct ← new_Product now (f_name body) (f_description body)
                     priceNumber None image;
      _ ← save newProduct;
      mret (status_json 201 (JProduct newProduct)))
    (fun err => status_json 500 (JError "Error adding product")).

(** [POST /api/products]: the middleware at time [upload_now], then the
    handler at time [now]. *)
Definition post_products (upload_now now : Z) (req : ProductRequest)
    (w : World) : Response * World :=
  let '(file, w1) := upload_single upload_now (req_image req) w in
  post_products_handler now (req_body req) file w1.

(** [DELETE /api/products/:id]. *)
Definition delete_product (id : string) : World -> Response * World :=
  try_catch (
    deleted ← findByIdAndDelete id;
    match deleted with
    | None => mret (status_json 404 (JError "Product not found"))
    | Some _ => mret (json (JMessage "Product deleted"))
    end)
    (fun err => status_json 500 (JError "Server error")).


(** [POST /api/register]; [bcrypt_hash] is what [bcrypt.hash(_, 10)] returns
    during this request. *)
Definition register (bcrypt_hash : string -> string) (req : RegisterRequest)
    : World -> option Response * World :=
  no_catch (
    existing ← User_findOne (reg_email req);
    match existing with
    | Some _ => mret (status_json 400 (JError "User already exists"))
    | None =>
        let hashed := bcrypt_hash (reg_password req) in
        newUser ← new_User (reg_username req) (reg_email req) hashed;
        _ ← User_save newUser;
        mret (status_json 201 (JMessage "User registered"))
    end).

(** [seedAdmin()]: the world it leaves. *)
Definition seedAdmin (bcrypt_hash : string -> string) (w : World) : World :=
  (( let email := "admin@gmail.com" in
     exists_ ← User_findOne email;
     match exists_ with
     | None =>
         let hashed := bcrypt_hash "admin123" in
         admin ← new_User "Admin" email hashed;
         User_save admin
     | Some _ => mret tt
     end ) w).2.

End Local.

(** ** The second server: images on Cloudinary *)

Module Cloud.

(** What Cloudinary calls the [upload_stream] callback with. *)
Inductive CloudinaryReply : Type :=
  | cb_error (message : string)
  | cb_result (secure_url : string).

Record UploadResult : Type := mkUploadResult {
  secure_url : string
}.

(** [uploadToCloudinary(buffer)]: the promise rejects on [error] and
    resolves with [result] otherwise; a resolved upload has put the buffer
    in the folder [products]. *)
Definition uploadToCloudinary (reply : CloudinaryReply)
    (buffer : list Byte.byte) : M UploadResult :=
  match reply with
  | cb_error e => throw (UploadFailure e)
  | cb_result url =>
      _ ← modify (set_blobs (insert url
                    {| folder := "products"; content := buffer |}));
      mret {| secure_url := url |}
  end.

(** [POST /api/login]. *)
Definition login (bcrypt_compare : string -> string -> bool)
    (env_JWT_SECRET : option string) (now : Z) (req : LoginRequest)
    : World -> Response * World :=
  try_catch (
    user ← User_findOne (login_email req);
    match user with
    | None => mret (status_json 400 (JError "Invalid credentials"))
    | Some user =>
        let match_ := bcrypt_compare (login_password req) (User.password user) in
        if negb match_ then mret (status_json 400 (JError "Wrong password"))
        else
          token ← jwt_sign (User._id user) env_JWT_SECRET "2h" now;
          mret (json (JLogin token (User._id user) (User.username user)))
    end)
    (fun err => status_json 500 (JError "Internal server error")).

(** [GET /api/products]. *)
Definition get_products : World -> Response * World :=
  try_catch (
    products ← Product_find_sort;
    mret (json (JProducts products)))
    (fun err => status_json 500 (JError "Internal server error")).

(** [POST /api/products]; [upload.single("image")] with memory storage only
    hands the file part to the handler as [req.file]. *)
Definition post_products (reply : CloudinaryReply) (now : Z)
    (req : ProductRequest) : World -> Response * World :=
  try_catch (
    let body := req_body req in
    let priceNumber := JS.parseFloat (f_price body) in
    if JS.isNaN priceNumber then
      mret (status_json 400 (JError "Price must be a valid number"))
    else
      imageUrl ←
        match req_image req with
        | Some file =>
            cloudResult ← uploadToCloudinary reply (buffer file);
            mret (secure_url cloudResult)
        | None => mret ""
        end;
      newProduct ← new_Product now (f_name body) (f_description body)
                     priceNumber (f_category body) imageUrl;
      _ ← save newProduct;
      mret (status_json 201 (JProduct newProduct)))
    (fun err => status_json 500 (JError "Internal server error")).

(** [PUT /api/products/:id]. *)
Definition put_product (reply : CloudinaryReply) (id : string)
    (req : ProductRequest) : World -> Response * World :=
  try_catch (
    let body := req_body req in
    let priceNumber := JS.parseFloat (f_price body) in
    if JS.isNaN priceNumber then
      mret (status_json 400 (JError "Price must be a valid number"))
    else
      let updateData :=
        {| u_name := f_name body; u_description := f_description body;
           u_price := Some priceNumber; u_category := f_category body;
           u_image := None |} in
      updateData ←
        match req_image req with
        | Some file =>
            cloudResult ← uploadToCloudinary reply (buffer file);
            mret {| u_name := u_name updateData;
                    u_description := u_description updateData;
                    u_price := u_price updateData;
                    u_category := u_category updateData;
                    u_image := Some (secure_url cloudResult) |}
        | None => mret updateData
        end;
      updated ← findByIdAndUpdate id updateData;
      match updated with
      | None => mret (status_json 404 (JError "Product not found"))
      | Some doc => mret (json (JProduct doc))
      end)
    (fun err => status_json 500 (JError "Internal server error")).

(** [DELETE /api/products/:id]. *)
Definition delete_product (id : string) : World -> Response * World :=
  try_catch (
    deleted ← findByIdAndDelete id;
    match deleted with
    | None => mret (status_json 404 (JError "Product not found"))
    | Some _ => mret (json (JMessage "Product deleted"))
    end)
    (fun err => status_json 500 (JError "Internal server error")).


(** [POST /api/register]; [bcrypt_hash] is what [bcrypt.hash(_, 10)] returns
    during this request. *)
Definition register (bcrypt_hash : string -> string) (req : RegisterRequest)
    : World -> Response * World :=
  try_catch (
    existing ← User_findOne (reg_email req);
    match existing with
    | Some _ => mret (status_json 400 (JError "User already exists"))
    | None =>
        let hashed := bcrypt_hash (reg_password req) in
        newUser ← new_User (reg_username req) (reg_email req) hashed;
        _ ← User_save newUser;
        mret (status_json 201 (JMessage "User registered"))
    end)
    (fun err => status_json 500 (JError "Internal server error")).

(** [seedAdmin()]: the world it leaves. *)
Definition seedAdmin (bcrypt_hash : string -> string) (w : World) : World :=
  (( let email := "admin@gmail.com" in
     exists_ ← User_findOne email;
     match exists_ with
     | None =>
         let hashed := bcrypt_hash "admin123" in
         admin ← new_User "Admin" email hashed;
         User_save admin
     | Some _ => mret tt
     end ) w).2.

End Cloud.

(** ** The error classes of the specification, as responses *)

(** A rejected price: 400 with the message both servers send. *)
Definition ValidationError (r : Response) : Prop :=
  r = status_json 400 (JError "Price must be a valid number").

(** No product under the given id: 404. *)
Definition NotFoundError (r : Response) : Prop :=
  r = status_json 404 (JError "Product not found").

(** A failed upload surfaces through the [catch] block: 500 with an error
    message. *)
Definition UploadError (r : Response) : Prop :=
  status r = 500 /\ exists msg, body r = JError msg.

(** A refused login: 400 with an error message. *)
Definition InvalidCredentialsError (r : Response) : Prop :=
  status r = 400 /\ exists msg, body r = JError msg.

(** The price "parses to a finite non-negative number". *)
Definition finite_non_negative (x : JS.number) : bool :=
  JS.isFinite x && JS.nonNegative x.

(** The upload step of a request does not fail: there is no file, or
    Cloudinary answers with a result. *)
Definition upload_succeeds (reply : Cloud.CloudinaryReply)
    (req : ProductRequest) : Prop :=
  req_image req = None \/ exists url, reply = Cloud.cb_result url.

(** ** Sample data *)

Definition empty_world : World :=
  {| products := ∅; users := []; blobs := ∅ |}.

Definition pen_png : FilePart :=
  {| originalname := "pen.png"; buffer := [Byte.x89; Byte.x50; Byte.x4e; Byte.x47] |}.

Definition pen_fields (price : option string) : Fields :=
  {| f_name := Some "Pen"; f_description := Some "Blue ink";
     f_price := price; f_category := Some "stationery" |}.

Definition pen_request (price : option string) (file : option FilePart)
    : ProductRequest :=
  {| req_body := pen_fields price; req_image := file |}.

(** A catalogue with one product, under the id [0]. *)
Definition one_pen : World :=
  (Cloud.post_products (Cloud.cb_result "https://res.example/products/pen.png")
     1700000000000 (pen_request (Some "1.50") (Some pen_png)) empty_world).2.

Definition id0 : string := "000000000000000000000000".
Definition id7 : string := "000000000000000000000007".

Definition admin : User.t :=
  {| User._id := 1%N; User.username := Some "Admin";
     User.email := "admin@gmail.com"; User.password := "hash:admin123" |}.

Definition one_user : World :=
  {| products := ∅; users := [admin]; blobs := ∅ |}.

(** A stand-in for [bcrypt.compare] on the sample user. *)
Definition sample_compare (password hash : string) : bool :=
  String.eqb ("hash:" +:+ password) hash.

(** ** Requests as data *)

(** One request to one of the two servers, with what the environment
    contributes to it (clock readings, the bcrypt results, the Cloudinary
    answer, the configured secret). *)
Inductive Route : Type :=
  | LocalRegister (bcrypt_hash : string -> string) (req : RegisterRequest)
  | LocalLogin (bcrypt_compare : string -> string -> bool)
      (env_JWT_SECRET : option string) (now : Z) (req : LoginRequest)
  | LocalList
  | LocalCreate (upload_now now : Z) (req : ProductRequest)
  | LocalDelete (id : string)
  | CloudRegister (bcrypt_hash : string -> string) (req : RegisterRequest)
  | CloudLogin (bcrypt_compare : string -> string -> bool)
      (env_JWT_SECRET : option string) (now : Z) (req : LoginRequest)
  | CloudList
  | CloudCreate (reply : Cloud.CloudinaryReply) (now : Z) (req : ProductRequest)
  | CloudUpdate (reply : Cloud.CloudinaryReply) (id : string)
      (req : ProductRequest)
  | CloudDelete (id : string).

Definition answered (out : Response * World) : option Response * World :=
  (Some out.1, out.2).

Definition serve (r : Route) (w : World) : option Response * World :=
  match r with
  | LocalRegister h req => Local.register h req w
  | LocalLogin c e now req => Local.login c e now req w
  | LocalList => Local.get_products w
  | LocalCreate t now req => answered (Local.post_products t now req w)
  | LocalDelete id => answered (Local.delete_product id w)
  | CloudRegister h req => answered (Cloud.register h req w)
  | CloudLogin c e now req => answered (Cloud.login c e now req w)
  | CloudList => answered (Cloud.get_products w)
  | CloudCreate reply now req => answered (Cloud.post_products reply now req w)
  | CloudUpdate reply id req => answered (Cloud.put_product reply id req w)
  | CloudDelete id => answered (Cloud.delete_product id w)
  end.

(** The world after a sequence of requests, each served to its end before
    the next one starts; requests in flight at the same time, whose awaits
    interleave, are not described by it. *)
Definition serve_all (rs : list Route) (w : World) : World :=
  fold_left (fun w r => (serve r w).2) rs w.

(** ** Properties of a world *)

(** The query of [User.findOne({ email })] on a list of users. *)
Definition has_email (email : string) (u : User.t) : bool :=
  String.eqb (User.email u) email.

(** Every image path of a stored product is empty or the reference of a
    stored blob. *)
Definition images_resolve (w : World) : Prop :=
  forall (id : ObjectId) (p : Product.t) (ref : string),
    products w !! id = Some p ->
    Product.image p = Some ref ->
    ref = "" \/ is_Some (blobs w !! ref).

(** The document a create request stores. *)
Definition created (w : World) (now : Z) (body : Fields)
    (category : option string) (image : string) : Doc :=
  (fresh (dom (products w)),
   {| Product.name := f_name body;
      Product.description := f_description body;
      Product.price := Some (JS.parseFloat (f_price body));
      Product.category := category;
      Product.image := Some image;
      Product.date := now |}).

(** The name the disk storage gives a file uploaded at [upload_now]. *)
Definition disk_name (upload_now : Z) (f : FilePart) : string :=
  pretty upload_now +:+ extname (originalname f).

(** The user document a registration (or the admin seeding) stores. *)
Definition signed_up (w : World) (username email hashed : string) : User.t :=
  {| User._id := fresh (User._id <$> users w);
     User.username := Some username;
     User.email := email;
     User.password := hashed |}.

(** A stand-in for [bcrypt.hash] that goes with [sample_compare]. *)
Definition sample_hash (password : string) : string := "hash:" +:+ password.

Definition ann : RegisterRequest :=
  {| reg_username := "ann"; reg_email := "ann@example.org";
     reg_password := "s3cret!" |}.

(** ** Running a handler *)

Ltac run :=
  unfold Local.post_products, Local.post_products_handler, Local.upload_single,
    Local.delete_product, Local.get_products, Local.login,
    Cloud.post_products, Cloud.put_product, Cloud.delete_product,
    Cloud.get_products, Cloud.login, Cloud.uploadToCloudinary,
    findByIdAndUpdate, findByIdAndDelete, cast_id, new_Product, save,
    Product_find_sort, User_findOne, jwt_sign,
    try_catch, no_catch, throw, get_world, modify,
    mbind, M_bind, mret, M_ret;
  simpl.

Ltac run_all :=
  unfold serve, answered, Local.register, Local.seedAdmin, Cloud.register,
    Cloud.seedAdmin, new_User, User_save;
  run.

(** ** The price check *)

Lemma ValidationError_status (r : Response) :
  ValidationError r -> status r = 400.
Proof. intros ->. reflexivity. Qed.

(** C1 (as amended).  A create or update request is answered with the
    validation error (400) exactly when [parseFloat] of its price field is
    NaN; every price that parses to a number, negative and infinite ones
    included, passes the check. *)
Theorem price_check_rejects_exactly_NaN
    (reply : Cloud.CloudinaryReply) (upload_now now : Z) (id : string)
    (req : ProductRequest) (w : World) :
  let nan := JS.isNaN (JS.parseFloat (f_price (req_body req))) in
  (ValidationError (Local.post_products upload_now now req w).1 <-> nan = true)
  /\ (ValidationError (Cloud.post_products reply now req w).1 <-> nan = true)
  /\ (ValidationError (Cloud.put_product reply id req w).1 <-> nan = true).
Proof.
  intros nan. subst nan. run.
  destruct (JS.isNaN (JS.parseFloat (f_price (req_body req)))) eqn:Hnan.
  - repeat split; try reflexivity; destruct (req_image req); reflexivity.
  - repeat split; intros H; try discriminate H;
      apply ValidationError_status in H; revert H;
      destruct (req_image req) as [f|]; simpl;
      try (destruct reply; simpl);
      try (destruct (castObjectId id) as [oid|]; simpl);
      try (destruct (products _ !! oid); simpl);
      discriminate.
Qed.

(** C1, the claim as stated fails: the price ["-5"] is not a finite
    non-negative number, and so is ["Infinity"], yet both servers create
    the product (201) and the update goes through (200). *)
Lemma negative_price_is_accepted :
  finite_non_negative (JS.parseFloat (Some "-5")) = false
  /\ finite_non_negative (JS.parseFloat (Some "Infinity")) = false
  /\ status (Cloud.post_products (Cloud.cb_error "down") 1700000000000
               (pen_request (Some "-5") None) empty_world).1 = 201
  /\ status (Local.post_products 1700000000000 1700000000001
               (pen_request (Some "-5") None) empty_world).1 = 201
  /\ status (Cloud.post_products (Cloud.cb_error "down") 1700000000000
               (pen_request (Some "Infinity") None) empty_world).1 = 201
  /\ status (Cloud.put_product (Cloud.cb_error "down") id0
               (pen_request (Some "-5") None) one_pen).1 = 200.
Proof. vm_compute. repeat split; reflexivity. Qed.

(** C2 (as amended).  When a create or update request is answered with the
    validation error, no product is inserted or modified in either server.
    On the Cloudinary server nothing at all is written.  On the local-disk
    server the route handler writes nothing, and the world after the request
    is the one the upload middleware left: a file sent with the request is
    already on disk when the price is checked. *)
Theorem validation_error_writes_no_record
    (reply : Cloud.CloudinaryReply) (upload_now now : Z) (id : string)
    (req : ProductRequest) (file : option Local.DiskFile) (w : World) :
  (ValidationError (Cloud.post_products reply now req w).1 ->
     (Cloud.post_products reply now req w).2 = w)
  /\ (ValidationError (Cloud.put_product reply id req w).1 ->
     (Cloud.put_product reply id req w).2 = w)
  /\ (ValidationError (Local.post_products_handler now (req_body req) file w).1 ->
     (Local.post_products_handler now (req_body req) file w).2 = w)
  /\ (ValidationError (Local.post_products upload_now now req w).1 ->
     let w' := (Local.post_products upload_now now req w).2 in
     products w' = products w /\ users w' = users w
     /\ w' = (Local.upload_single upload_now (req_image req) w).2).
Proof.
  run.
  destruct (JS.isNaN (JS.parseFloat (f_price (req_body req)))) eqn:Hnan.
  - split; [|split; [|split]]; intros _; try reflexivity.
    destruct (req_image req); simpl; auto.
  - split; [|split; [|split]]; intros H;
      apply ValidationError_status in H; exfalso;
      revert H; destruct (req_image req) as [f|]; simpl;
      try (destruct reply; simpl);
      try (destruct (castObjectId id) as [oid|]; simpl);
      try (destruct (products _ !! oid); simpl);
      discriminate.
Qed.

Lemma validation_error_writes_no_record_witness :
  let req := pen_request (Some "abc") (Some pen_png) in
  let reply := Cloud.cb_result "https://res.example/products/pen.png" in
  (Cloud.post_products reply 5 req one_pen).2 = one_pen
  /\ (Cloud.put_product reply id0 req one_pen).2 = one_pen
  /\ (Local.post_products_handler 5 (req_body req) None one_pen).2 = one_pen
  /\ products (Local.post_products 4 5 req one_pen).2 = products one_pen.
Proof.
  intros req reply.
  destruct (validation_error_writes_no_record reply 4 5 id0 req None one_pen)
    as (Hpost & Hput & Hhandler & Hlocal).
  split; [apply Hpost; reflexivity|].
  split; [apply Hput; reflexivity|].
  split; [apply Hhandler; reflexivity|].
  apply Hlocal. reflexivity.
Defined.

(** C2, the claim as stated fails on the local-disk server: a request with
    a file and the price ["abc"] is answered with the validation error, and
    the file is in the uploads directory afterwards. *)
Lemma local_upload_precedes_validation :
  let req := pen_request (Some "abc") (Some pen_png) in
  let out := Local.post_products 1700000000000 1700000000005 req empty_world in
  ValidationError out.1
  /\ blobs empty_world !! "/uploads/1700000000000.png" = None
  /\ blobs out.2 !! "/uploads/1700000000000.png"
     = Some {| folder := "uploads/"; content := buffer pen_png |}.
Proof. vm_compute. repeat split; reflexivity. Qed.

(** ** Failed uploads *)

(** C3.  When a file is attached to a create request whose price passes the
    check and Cloudinary reports an error, the request is answered with the
    generic 500 and the world is as before: no product was inserted and no
    blob stored. *)
Theorem failed_upload_creates_nothing
    (message : string) (now : Z) (req : ProductRequest) (file : FilePart)
    (w : World) :
  req_image req = Some file ->
  JS.isNaN (JS.parseFloat (f_price (req_body req))) = false ->
  let out := Cloud.post_products (Cloud.cb_error message) now req w in
  UploadError out.1
  /\ out.1 = status_json 500 (JError "Internal server error")
  /\ out.2 = w.
Proof.
  intros Hfile Hnan. run. rewrite Hnan, Hfile. simpl.
  unfold UploadError. simpl. eauto.
Qed.

Lemma failed_upload_creates_nothing_witness :
  let req := pen_request (Some "1.50") (Some pen_png) in
  let out := Cloud.post_products (Cloud.cb_error "timeout") 5 req one_pen in
  UploadError out.1
  /\ out.1 = status_json 500 (JError "Internal server error")
  /\ out.2 = one_pen.
Proof.
  intros req.
  apply (failed_upload_creates_nothing "timeout" 5 req pen_png one_pen);
    reflexivity.
Defined.

(** ** Updates *)

Lemma parseFloat_undefined : JS.parseFloat None = JS.NaN.
Proof. reflexivity. Qed.

(** C10.  An update request without a price field is answered with the
    validation error whatever else it carries, and changes nothing: a single
    other field cannot be updated on its own. *)
Theorem update_without_price_is_rejected
    (reply : Cloud.CloudinaryReply) (id : string) (req : ProductRequest)
    (w : World) :
  f_price (req_body req) = None ->
  let out := Cloud.put_product reply id req w in
  ValidationError out.1 /\ status out.1 = 400 /\ out.2 = w.
Proof.
  intros Hprice. run. rewrite Hprice, parseFloat_undefined. simpl.
  unfold ValidationError. auto.
Qed.

Lemma update_without_price_is_rejected_witness :
  let req := {| req_body := {| f_name := Some "Pencil"; f_description := None;
                               f_price := None; f_category := None |};
                req_image := None |} in
  let out := Cloud.put_product (Cloud.cb_error "unused") id0 req one_pen in
  ValidationError out.1 /\ status out.1 = 400 /\ out.2 = one_pen.
Proof.
  intros req.
  apply (update_without_price_is_rejected (Cloud.cb_error "unused") id0 req one_pen).
  reflexivity.
Defined.

(** C4.  An update without a file on an existing product never touches the
    image path.  When the price is rejected nothing changes; otherwise the
    stored document is the old one with every field the request carries
    written over it, the parsed price, and the old image and date. *)
Theorem update_without_file_keeps_image
    (reply : Cloud.CloudinaryReply) (id : string) (req : ProductRequest)
    (w : World) (oid : ObjectId) (p : Product.t) :
  req_image req = None ->
  castObjectId id = Some oid ->
  products w !! oid = Some p ->
  let out := Cloud.put_product reply id req w in
  let priceNumber := JS.parseFloat (f_price (req_body req)) in
  let p' :=
    {| Product.name := set_path (f_name (req_body req)) (Product.name p);
       Product.description :=
         set_path (f_description (req_body req)) (Product.description p);
       Product.price := Some priceNumber;
       Product.category :=
         set_path (f_category (req_body req)) (Product.category p);
       Product.image := Product.image p;
       Product.date := Product.date p |} in
  (exists q, products out.2 !! oid = Some q
             /\ Product.image q = Product.image p)
  /\ (if JS.isNaN priceNumber
      then out = (status_json 400 (JError "Price must be a valid number"), w)
      else out = (json (JProduct (oid, p')), set_products (insert oid p') w)).
Proof.
  intros Hfile Hid Hp. run. rewrite Hfile.
  destruct (JS.isNaN (JS.parseFloat (f_price (req_body req)))) eqn:Hnan; simpl.
  - split; [|reflexivity]. exists p. auto.
  - rewrite Hid. simpl. rewrite Hp. simpl. split; [|reflexivity].
    eexists. split; [apply lookup_insert_eq|reflexivity].
Qed.

Lemma update_without_file_keeps_image_witness :
  let req := {| req_body := {| f_name := Some "Pencil"; f_description := None;
                               f_price := Some "2"; f_category := None |};
                req_image := None |} in
  let out := Cloud.put_product (Cloud.cb_error "unused") id0 req one_pen in
  exists q, products out.2 !! 0%N = Some q
            /\ Product.image q = Some "https://res.example/products/pen.png".
Proof.
  intros req out.
  destruct (update_without_file_keeps_image (Cloud.cb_error "unused") id0 req
              one_pen 0%N
              {| Product.name := Some "Pen";
                 Product.description := Some "Blue ink";
                 Product.price := Some (JS.parseFloat (Some "1.50"));
                 Product.category := Some "stationery";
                 Product.image := Some "https://res.example/products/pen.png";
                 Product.date := 1700000000000 |}) as [Himage _];
    [reflexivity | reflexivity | reflexivity | exact Himage].
Defined.

(** C6 (as amended).  An update addressed to a well-formed id under which
    no product is stored is answered with 404 and changes no record,
    provided the price passes the check and the upload step does not
    fail. *)
Theorem update_of_missing_product
    (reply : Cloud.CloudinaryReply) (id : string) (req : ProductRequest)
    (w : World) (oid : ObjectId) :
  castObjectId id = Some oid ->
  products w !! oid = None ->
  JS.isNaN (JS.parseFloat (f_price (req_body req))) = false ->
  upload_succeeds reply req ->
  let out := Cloud.put_product reply id req w in
  NotFoundError out.1 /\ status out.1 = 404
  /\ products out.2 = products w /\ users out.2 = users w.
Proof.
  intros Hid Hnone Hnan Hup. run. rewrite Hnan.
  destruct Hup as [Hfile | [url ->]].
  - rewrite Hfile. simpl. rewrite Hid. simpl. rewrite Hnone. simpl.
    unfold NotFoundError. auto.
  - destruct (req_image req) as [file|]; simpl; rewrite Hid; simpl;
      rewrite Hnone; simpl; unfold NotFoundError; auto.
Qed.

Lemma update_of_missing_product_witness :
  let req := pen_request (Some "2") (Some pen_png) in
  let out := Cloud.put_product (Cloud.cb_result "https://res.example/products/p2.png")
               id7 req one_pen in
  NotFoundError out.1 /\ status out.1 = 404
  /\ products out.2 = products one_pen /\ users out.2 = users one_pen.
Proof.
  intros req.
  apply (update_of_missing_product
           (Cloud.cb_result "https://res.example/products/p2.png") id7 req
           one_pen 7%N);
    [reflexivity | reflexivity | reflexivity |].
  right. eexists. reflexivity.
Defined.

(** C6, the claim as stated fails: with a valid price and no product under
    the id, the answer is 500 and not 404 when the id is not a well-formed
    identifier, and also when the upload of an attached file fails. *)
Lemma update_of_missing_product_can_be_500 :
  JS.isNaN (JS.parseFloat (Some "2")) = false
  /\ castObjectId "abc" = None
  /\ Cloud.put_product (Cloud.cb_error "unused") "abc"
       (pen_request (Some "2") None) one_pen
     = (status_json 500 (JError "Internal server error"), one_pen)
  /\ products one_pen !! 7%N = None
  /\ castObjectId id7 = Some 7%N
  /\ Cloud.put_product (Cloud.cb_error "timeout") id7
       (pen_request (Some "2") (Some pen_png)) one_pen
     = (status_json 500 (JError "Internal server error"), one_pen).
Proof. vm_compute. repeat split; reflexivity. Qed.

(** ** Creation *)

Lemma nonNegative_not_NaN (x : JS.number) :
  JS.nonNegative x = true -> JS.isNaN x = false.
Proof. destruct x; simpl; congruence. Qed.

Lemma fresh_id_unused (w : World) :
  products w !! fresh (dom (products w)) = None.
Proof. apply not_elem_of_dom, is_fresh. Qed.

(** C5 (as amended).  For a price string that parses to a non-negative
    number, a create request is answered with 201 and the new document: it
    is stored under an id no product had before, and its price is the parsed
    value.  On the Cloudinary server this needs the upload step not to
    fail. *)
Theorem valid_price_creates_product
    (reply : Cloud.CloudinaryReply) (upload_now now : Z)
    (req : ProductRequest) (w : World) (s : string) :
  f_price (req_body req) = Some s ->
  JS.nonNegative (JS.parseFloat (Some s)) = true ->
  let stored (out : Response * World) :=
    exists (id : ObjectId) (p : Product.t),
      out.1 = status_json 201 (JProduct (id, p))
      /\ products w !! id = None
      /\ products out.2 = <[id := p]> (products w)
      /\ Product.price p = Some (JS.parseFloat (Some s)) in
  stored (Local.post_products upload_now now req w)
  /\ (upload_succeeds reply req ->
      stored (Cloud.post_products reply now req w)).
Proof.
  intros Hprice Hpos stored. subst stored.
  apply nonNegative_not_NaN in Hpos. run. rewrite Hprice, Hpos.
  split.
  - destruct (req_image req) as [file|]; simpl;
      eexists _, _; (split; [reflexivity|]);
      (split; [apply fresh_id_unused|]); split; reflexivity.
  - intros [Hfile | [url ->]].
    + rewrite Hfile. simpl.
      eexists _, _. split; [reflexivity|].
      split; [apply fresh_id_unused|]. split; reflexivity.
    + destruct (req_image req) as [file|]; simpl;
        eexists _, _; (split; [reflexivity|]);
        (split; [apply fresh_id_unused|]); split; reflexivity.
Qed.

Lemma valid_price_creates_product_witness :
  let req := pen_request (Some "1.50") (Some pen_png) in
  let reply := Cloud.cb_result "https://res.example/products/p2.png" in
  (exists id p,
     (Local.post_products 4 5 req one_pen).1 = status_json 201 (JProduct (id, p))
     /\ products one_pen !! id = None
     /\ products (Local.post_products 4 5 req one_pen).2
        = <[id := p]> (products one_pen)
     /\ Product.price p = Some (JS.parseFloat (Some "1.50")))
  /\ (exists id p,
     (Cloud.post_products reply 5 req one_pen).1 = status_json 201 (JProduct (id, p))
     /\ products one_pen !! id = None
     /\ products (Cloud.post_products reply 5 req one_pen).2
        = <[id := p]> (products one_pen)
     /\ Product.price p = Some (JS.parseFloat (Some "1.50"))).
Proof.
  intros req reply.
  destruct (valid_price_creates_product reply 4 5 req one_pen "1.50")
    as [Hlocal Hcloud]; [reflexivity | reflexivity |].
  split; [exact Hlocal|].
  apply Hcloud. right. eexists. reflexivity.
Defined.

(** C5, the claim as stated fails on the Cloudinary server: the price
    ["1.50"] parses to a non-negative number, yet with a file attached and
    an upload that fails the request is answered with 500 and no product is
    stored. *)
Lemma valid_price_with_failed_upload_is_500 :
  JS.nonNegative (JS.parseFloat (Some "1.50")) = true
  /\ Cloud.post_products (Cloud.cb_error "timeout") 1700000000005
       (pen_request (Some "1.50") (Some pen_png)) one_pen
     = (status_json 500 (JError "Internal server error"), one_pen).
Proof. split; reflexivity. Qed.

(** ** Deletion and listing *)

(** C7 (as amended).  A delete request on the id of a stored product
    answers 200 and removes that product.  On a well-formed id without a
    product it answers 404; on an id that is not well-formed it answers
    500.  In both failing cases the world is unchanged, and listing the
    products afterwards gives what it gave before. *)
Theorem delete_product_outcomes (id : string) (w : World) :
  let cloud := Cloud.delete_product id w in
  let local := Local.delete_product id w in
  match castObjectId id with
  | Some oid =>
      match products w !! oid with
      | Some p =>
          cloud = (json (JMessage "Product deleted"),
                   set_products (delete oid) w)
          /\ local = (json (JMessage "Product deleted"),
                      set_products (delete oid) w)
          /\ products cloud.2 !! oid = None
          /\ products local.2 !! oid = None
      | None =>
          NotFoundError cloud.1 /\ NotFoundError local.1
          /\ cloud.2 = w /\ local.2 = w
          /\ Cloud.get_products cloud.2 = Cloud.get_products w
          /\ Local.get_products local.2 = Local.get_products w
      end
  | None =>
      status cloud.1 = 500 /\ status local.1 = 500
      /\ cloud.2 = w /\ local.2 = w
      /\ Cloud.get_products cloud.2 = Cloud.get_products w
      /\ Local.get_products local.2 = Local.get_products w
  end.
Proof.
  run. destruct (castObjectId id) as [oid|]; simpl.
  - destruct (products w !! oid) as [p|] eqn:Hp; simpl.
    + repeat split; apply lookup_delete_eq.
    + unfold NotFoundError. repeat split.
  - repeat split.
Qed.

(** C7, the claim as stated fails: no product is stored under ["abc"], and
    the delete request is answered with 500, not with 404. *)
Lemma delete_with_malformed_id_is_500 :
  castObjectId "abc" = None
  /\ Cloud.delete_product "abc" one_pen
     = (status_json 500 (JError "Internal server error"), one_pen)
  /\ Local.delete_product "abc" one_pen
     = (status_json 500 (JError "Server error"), one_pen)
  /\ ~ NotFoundError (Cloud.delete_product "abc" one_pen).1
  /\ ~ NotFoundError (Local.delete_product "abc" one_pen).1.
Proof.
  split; [reflexivity|]. split; [reflexivity|]. split; [reflexivity|].
  split; intros H; vm_compute in H; discriminate H.
Qed.

Lemma newer_total : Total newer.
Proof. intros a b. unfold newer. lia. Qed.

Lemma newer_transitive : Transitive newer.
Proof. intros a b c. unfold newer. lia. Qed.

(** C8.  Listing answers 200 with all stored products, each once and none
    left out, every product at least as recent as all that follow it. *)
Theorem list_products_all_newest_first (w : World) :
  exists l : list Doc,
    Cloud.get_products w = (json (JProducts l), w)
    /\ Local.get_products w = (Some (json (JProducts l)), w)
    /\ l ≡ₚ map_to_list (products w)
    /\ (forall id p, (id, p) ∈ l <-> products w !! id = Some p)
    /\ NoDup l
    /\ List.length l = size (products w)
    /\ StronglySorted newer l.
Proof.
  exists (merge_sort newer (map_to_list (products w))).
  pose proof (merge_sort_Permutation newer (map_to_list (products w))) as Hperm.
  split; [reflexivity|]. split; [reflexivity|]. split; [exact Hperm|].
  split; [|split; [|split]].
  - intros id p. rewrite Hperm. apply elem_of_map_to_list.
  - rewrite Hperm. apply NoDup_map_to_list.
  - rewrite Hperm. apply length_map_to_list.
  - apply (@StronglySorted_merge_sort _ newer _ newer_transitive newer_total).
Qed.

(** ** Login *)

Lemma two_hours : ms "2h" = Some (2 * 60 * 60 * 1000).
Proof. reflexivity. Qed.

Lemma expiry_window (now : Z) :
  7199000 < 1000 * (now / 1000 + 7200000 / 1000) - now <= 7200000.
Proof.
  pose proof (Z.div_mod now 1000 ltac:(lia)) as Hdiv.
  pose proof (Z.mod_pos_bound now 1000 ltac:(lia)) as Hmod.
  change (7200000 / 1000) with 7200. lia.
Qed.

(** C9 (as amended).  When the query by email finds a user: if
    [bcrypt.compare] rejects the password, both servers answer 400 with an
    error and change nothing; if it accepts, [server.js] answers with a
    token whose payload holds that user's id, the issue time in seconds and
    an expiry 7200 seconds later, which is within one second of two hours
    after the request, and so does the Cloudinary server when the signing
    secret is set in its environment. *)
Theorem login_outcomes
    (bcrypt_compare : string -> string -> bool)
    (env_JWT_SECRET : option string) (now : Z) (req : LoginRequest)
    (w : World) (user : User.t) :
  List.find (fun u => String.eqb (User.email u) (login_email req)) (users w)
    = Some user ->
  let local := Local.login bcrypt_compare env_JWT_SECRET now req w in
  let cloud := Cloud.login bcrypt_compare env_JWT_SECRET now req w in
  let two_hours_ahead (token : Token) :=
    userId (jwt_decode token) = User._id user
    /\ iat (jwt_decode token) = now / 1000
    /\ exp (jwt_decode token) = iat (jwt_decode token) + 7200
    /\ 7199000 < 1000 * exp (jwt_decode token) - now <= 7200000 in
  if bcrypt_compare (login_password req) (User.password user)
  then
    (exists token,
       local = (Some (json (JLogin token (User._id user) (User.username user))), w)
       /\ two_hours_ahead token)
    /\ (forall key, env_JWT_SECRET = Some key -> key <> "" ->
        exists token,
          cloud = (json (JLogin token (User._id user) (User.username user)), w)
          /\ two_hours_ahead token)
  else
    (exists r, local = (Some r, w) /\ InvalidCredentialsError r)
    /\ InvalidCredentialsError cloud.1 /\ cloud.2 = w.
Proof.
  intros Hfind local cloud two_hours_ahead.
  subst local cloud two_hours_ahead. run. rewrite Hfind. simpl.
  destruct (bcrypt_compare (login_password req) (User.password user)); simpl.
  - split.
    + unfold Local.JWT_SECRET, env_or.
      destruct env_JWT_SECRET as [[|c key]|]; simpl;
        eexists; (split; [reflexivity|]); simpl;
        repeat split; apply expiry_window.
    + intros key -> Hkey. destruct key as [|c key]; [congruence|].
      simpl. eexists. split; [reflexivity|]. simpl.
      repeat split; apply expiry_window.
  - unfold InvalidCredentialsError. simpl. split; [|eauto].
    eexists. split; [reflexivity|]. simpl. eauto.
Qed.

Lemma login_outcomes_witness :
  let req := {| login_email := "admin@gmail.com";
                login_password := "admin123" |} in
  exists token,
    Cloud.login sample_compare (Some "s3cret") 1700000000123 req one_user
    = (json (JLogin token 1%N (Some "Admin")), one_user)
    /\ userId (jwt_decode token) = 1%N
    /\ exp (jwt_decode token) = 1700007200.
Proof.
  intros req.
  pose proof (login_outcomes sample_compare (Some "s3cret") 1700000000123 req
                one_user admin eq_refl) as H.
  cbv zeta in H.
  change (sample_compare (login_password req) (User.password admin))
    with true in H.
  destruct H as [_ Hcloud].
  destruct (Hcloud "s3cret" eq_refl ltac:(discriminate))
    as (token & Hout & Hid & Hiat & Hexp & _).
  exists token. split; [exact Hout|]. split; [exact Hid|].
  rewrite Hexp, Hiat. reflexivity.
Defined.

(** C9, the claim as stated fails on the second server: with the email
    and password of a stored user and no [JWT_SECRET] in the environment,
    the login is answered with 500 and no token. *)
Lemma login_with_unset_secret_is_500 :
  let req := {| login_email := "admin@gmail.com";
                login_password := "admin123" |} in
  List.find (fun u => String.eqb (User.email u) (login_email req))
    (users one_user) = Some admin
  /\ sample_compare (login_password req) (User.password admin) = true
  /\ Cloud.login sample_compare None 1700000000123 req one_user
     = (status_json 500 (JError "Internal server error"), one_user).
Proof. repeat split; reflexivity. Qed.

(** * Further properties of the two servers *)

(** ** Registration and the admin account *)

Lemma find_has_email_None (email : string) (us : list User.t) :
  List.find (has_email email) us = None <-> email ∉ (User.email <$> us).
Proof.
  induction us as [|u us IH]; simpl.
  - split; [intros _; apply not_elem_of_nil | reflexivity].
  - unfold has_email at 1. rewrite not_elem_of_cons.
    destruct (String.eqb (User.email u) email) eqn:Heq.
    + apply String.eqb_eq in Heq. split; [discriminate | intros [Hne _]; congruence].
    + apply String.eqb_neq in Heq. rewrite IH.
      split; [intros H; split; [congruence | exact H] | tauto].
Qed.

Lemma find_has_email_Some (email : string) (us : list User.t) (u : User.t) :
  List.find (has_email email) us = Some u -> u ∈ us /\ User.email u = email.
Proof.
  induction us as [|x us IH]; simpl; [discriminate|].
  unfold has_email at 1.
  destruct (String.eqb (User.email x) email) eqn:Heq.
  - intros [= ->]. apply String.eqb_eq in Heq. split; [left | exact Heq].
  - intros H. destruct (IH H) as [Hin He]. split; [right; exact Hin | exact He].
Qed.

Lemma find_snoc (f : User.t -> bool) (us : list User.t) (u : User.t) :
  List.find f (us ++ [u])%list
  = match List.find f us with
    | Some x => Some x
    | None => if f u then Some u else None
    end.
Proof.
  induction us as [|x us IH]; simpl; [reflexivity|].
  destruct (f x); [reflexivity | exact IH].
Qed.

Lemma cloud_register_eq (h : string -> string) (req : RegisterRequest)
    (w : World) :
  Cloud.register h req w
  = match List.find (has_email (reg_email req)) (users w) with
    | Some _ => (status_json 400 (JError "User already exists"), w)
    | None =>
        (status_json 201 (JMessage "User registered"),
         set_users (fun us => (us ++ [signed_up w (reg_username req)
                                       (reg_email req) (h (reg_password req))])%list) w)
    end.
Proof.
  run_all. change (fun u => String.eqb (User.email u) (reg_email req))
    with (has_email (reg_email req)).
  destruct (List.find (has_email (reg_email req)) (users w)); reflexivity.
Qed.

Lemma local_register_eq (h : string -> string) (req : RegisterRequest)
    (w : World) :
  Local.register h req w = answered (Cloud.register h req w).
Proof.
  rewrite cloud_register_eq. run_all.
  change (fun u => String.eqb (User.email u) (reg_email req))
    with (has_email (reg_email req)).
  destruct (List.find (has_email (reg_email req)) (users w)); reflexivity.
Qed.

Lemma seedAdmin_eq (h : string -> string) (w : World) :
  Cloud.seedAdmin h w
  = match List.find (has_email "admin@gmail.com") (users w) with
    | Some _ => w
    | None =>
        set_users (fun us => (us ++ [signed_up w "Admin" "admin@gmail.com"
                                       (h "admin123")])%list) w
    end
  /\ Local.seedAdmin h w = Cloud.seedAdmin h w.
Proof.
  run_all. change (fun u => String.eqb (User.email u) "admin@gmail.com")
    with (has_email "admin@gmail.com").
  destruct (List.find (has_email "admin@gmail.com") (users w)); split; reflexivity.
Qed.

(** X1.  A registration with an email no user has is answered with 201 and
    appends one user: the earlier users are kept in place, the new one has
    an [_id] none of them has and holds the bcrypt hash as its password, and
    the query by that email now returns it. *)
Theorem register_adds_the_user
    (h : string -> string) (req : RegisterRequest) (w : World) :
  List.find (has_email (reg_email req)) (users w) = None ->
  let out := Cloud.register h req w in
  let u := signed_up w (reg_username req) (reg_email req) (h (reg_password req)) in
  out.1 = status_json 201 (JMessage "User registered")
  /\ Local.register h req w = answered out
  /\ users out.2 = (users w ++ [u])%list
  /\ (User._id u ∉ (User._id <$> users w))
  /\ List.find (has_email (reg_email req)) (users out.2) = Some u
  /\ User.password u = h (reg_password req)
  /\ products out.2 = products w /\ blobs out.2 = blobs w.
Proof.
  intros Hnone out u. subst out.
  rewrite local_register_eq, cloud_register_eq, Hnone. simpl.
  repeat split.
  - apply infinite_is_fresh.
  - rewrite find_snoc, Hnone. unfold has_email at 1. simpl.
    rewrite String.eqb_refl. reflexivity.
Qed.

Lemma register_adds_the_user_witness :
  let out := Cloud.register sample_hash ann one_user in
  out.1 = status_json 201 (JMessage "User registered")
  /\ List.find (has_email "ann@example.org") (users out.2)
     = Some {| User._id := 2%N; User.username := Some "ann";
               User.email := "ann@example.org";
               User.password := "hash:s3cret!" |}.
Proof.
  destruct (register_adds_the_user sample_hash ann one_user eq_refl)
    as (Hstatus & _ & _ & _ & Hfind & _).
  split; [exact Hstatus | exact Hfind].
Defined.

(** X2.  A registration with an email some user already has is answered
    with 400 "User already exists" and leaves the world as it is: no second
    user is stored and the stored password is not replaced. *)
Theorem register_existing_email_is_refused
    (h : string -> string) (req : RegisterRequest) (w : World) (u : User.t) :
  List.find (has_email (reg_email req)) (users w) = Some u ->
  Cloud.register h req w
    = (status_json 400 (JError "User already exists"), w)
  /\ Local.register h req w
    = (Some (status_json 400 (JError "User already exists")), w).
Proof.
  intros Hsome. rewrite local_register_eq, cloud_register_eq, Hsome.
  split; reflexivity.
Qed.

Lemma register_existing_email_is_refused_witness :
  Cloud.register sample_hash
    {| reg_username := "mallory"; reg_email := "admin@gmail.com";
       reg_password := "x" |} one_user
  = (status_json 400 (JError "User already exists"), one_user).
Proof.
  apply (register_existing_email_is_refused sample_hash
           {| reg_username := "mallory"; reg_email := "admin@gmail.com";
              reg_password := "x" |} one_user admin eq_refl).
Defined.

Lemma cloud_login_eq (c : string -> string -> bool) (env : option string)
    (now : Z) (req : LoginRequest) (w : World) :
  Cloud.login c env now req w
  = (match List.find (has_email (login_email req)) (users w) with
     | None => status_json 400 (JError "Invalid credentials")
     | Some u =>
         if c (login_password req) (User.password u) then
           match env with
           | None | Some "" => status_json 500 (JError "Internal server error")
           | Some key =>
               json (JLogin {| tok_userId := User._id u; tok_iat := now / 1000;
                               tok_exp := now / 1000 + 7200; tok_key := key |}
                       (User._id u) (User.username u))
           end
         else status_json 400 (JError "Wrong password")
     end, w).
Proof.
  run. change (fun u => String.eqb (User.email u) (login_email req))
    with (has_email (login_email req)).
  destruct (List.find (has_email (login_email req)) (users w)) as [u|];
    [|reflexivity]. simpl.
  destruct (c (login_password req) (User.password u)); [|reflexivity]. simpl.
  destruct env as [[|a key]|]; reflexivity.
Qed.

Lemma local_login_eq (c : string -> string -> bool) (env : option string)
    (now : Z) (req : LoginRequest) (w : World) :
  Local.login c env now req w
  = answered (Cloud.login c (Some (Local.JWT_SECRET env)) now req w).
Proof.
  rewrite cloud_login_eq. run.
  change (fun u => String.eqb (User.email u) (login_email req))
    with (has_email (login_email req)).
  destruct (List.find (has_email (login_email req)) (users w)) as [u|];
    [|reflexivity]. simpl.
  destruct (c (login_password req) (User.password u)); [|reflexivity]. simpl.
  destruct env as [[|a key]|]; reflexivity.
Qed.

(** X3.  A user who has just registered can log in with the same email and
    password, on either server, as soon as [bcrypt.compare] accepts the
    password against the hash [bcrypt.hash] made of it (and, on the second
    server, the signing secret is set): the token carries the [_id] the
    registration assigned. *)
Theorem registered_user_can_log_in
    (h : string -> string) (c : string -> string -> bool)
    (env : option string) (now : Z) (req : RegisterRequest) (w : World) :
  List.find (has_email (reg_email req)) (users w) = None ->
  c (reg_password req) (h (reg_password req)) = true ->
  let w' := (Cloud.register h req w).2 in
  let creds := {| login_email := reg_email req;
                  login_password := reg_password req |} in
  let u := signed_up w (reg_username req) (reg_email req) (h (reg_password req)) in
  (exists token,
     Local.login c env now creds w'
     = (Some (json (JLogin token (User._id u) (Some (reg_username req)))), w')
     /\ userId (jwt_decode token) = User._id u)
  /\ (forall key, env = Some key -> key <> "" ->
      exists token,
        Cloud.login c env now creds w'
        = (json (JLogin token (User._id u) (Some (reg_username req))), w')
        /\ userId (jwt_decode token) = User._id u).
Proof.
  intros Hnone Hc w' creds u. subst w'.
  assert (Hfind : List.find (has_email (login_email creds))
                    (users (Cloud.register h req w).2) = Some u).
  { rewrite cloud_register_eq, Hnone. simpl. rewrite find_snoc, Hnone.
    unfold has_email at 1. simpl. rewrite String.eqb_refl. reflexivity. }
  split.
  - rewrite local_login_eq, cloud_login_eq, Hfind. simpl. rewrite Hc.
    unfold Local.JWT_SECRET, env_or.
    destruct env as [[|a key]|]; eexists; split; reflexivity.
  - intros key -> Hkey. rewrite cloud_login_eq, Hfind. simpl. rewrite Hc.
    destruct key as [|a key]; [congruence|].
    eexists; split; reflexivity.
Qed.

Lemma registered_user_can_log_in_witness :
  exists token,
    Cloud.login sample_compare (Some "k") 1700000000123
      {| login_email := "ann@example.org"; login_password := "s3cret!" |}
      (Cloud.register sample_hash ann one_user).2
    = (json (JLogin token 2%N (Some "ann")),
       (Cloud.register sample_hash ann one_user).2)
    /\ userId (jwt_decode token) = 2%N.
Proof.
  destruct (registered_user_can_log_in sample_hash sample_compare (Some "k")
              1700000000123 ann one_user eq_refl eq_refl) as [_ Hcloud].
  exact (Hcloud "k" eq_refl ltac:(discriminate)).
Defined.

(** X4.  Seeding the admin twice is the same as seeding it once, whatever
    hashes bcrypt produces; afterwards a user with the admin email exists;
    an admin that is already there is left as it is (its password is not
    reset); products and blobs are not touched.  Both servers seed alike. *)
Theorem seedAdmin_is_idempotent (h h' : string -> string) (w : World) :
  let w' := Cloud.seedAdmin h w in
  Local.seedAdmin h w = w'
  /\ is_Some (List.find (has_email "admin@gmail.com") (users w'))
  /\ Cloud.seedAdmin h' w' = w'
  /\ (is_Some (List.find (has_email "admin@gmail.com") (users w)) -> w' = w)
  /\ products w' = products w /\ blobs w' = blobs w.
Proof.
  intros w'. subst w'.
  destruct (seedAdmin_eq h w) as [Heq Hlocal].
  destruct (seedAdmin_eq h' (Cloud.seedAdmin h w)) as [Heq' _].
  assert (Hfound : is_Some (List.find (has_email "admin@gmail.com")
                              (users (Cloud.seedAdmin h w)))).
  { rewrite Heq.
    destruct (List.find (has_email "admin@gmail.com") (users w)) eqn:Hf.
    - rewrite Hf. eauto.
    - simpl. rewrite find_snoc, Hf. simpl. eauto. }
  split; [exact Hlocal|]. split; [exact Hfound|].
  split; [|split; [|split]].
  - rewrite Heq'. destruct Hfound as [u ->]. reflexivity.
  - intros [u Hu]. rewrite Heq, Hu. reflexivity.
  - rewrite Heq.
    destruct (List.find (has_email "admin@gmail.com") (users w)); reflexivity.
  - rewrite Heq.
    destruct (List.find (has_email "admin@gmail.com") (users w)); reflexivity.
Qed.

(** X5.  On a database without an admin, seeding makes the login
    admin@gmail.com / admin123 work, as soon as [bcrypt.compare] accepts
    that password against the seeded hash (and, on the second server, the
    signing secret is set). *)
Theorem seeded_admin_can_log_in
    (h : string -> string) (c : string -> string -> bool)
    (env : option string) (now : Z) (w : World) :
  List.find (has_email "admin@gmail.com") (users w) = None ->
  c "admin123" (h "admin123") = true ->
  let w' := Cloud.seedAdmin h w in
  let creds := {| login_email := "admin@gmail.com";
                  login_password := "admin123" |} in
  (exists token id,
     Local.login c env now creds w'
     = (Some (json (JLogin token id (Some "Admin"))), w'))
  /\ (forall key, env = Some key -> key <> "" ->
      exists token id,
        Cloud.login c env now creds w'
        = (json (JLogin token id (Some "Admin")), w')).
Proof.
  intros Hnone Hc w' creds. subst w'.
  destruct (seedAdmin_eq h w) as [Heq _]. rewrite Hnone in Heq.
  assert (Hfind : List.find (has_email (login_email creds))
                    (users (Cloud.seedAdmin h w))
                  = Some (signed_up w "Admin" "admin@gmail.com" (h "admin123"))).
  { rewrite Heq. simpl. rewrite find_snoc, Hnone. reflexivity. }
  split.
  - rewrite local_login_eq, cloud_login_eq, Hfind. simpl. rewrite Hc.
    unfold Local.JWT_SECRET, env_or.
    destruct env as [[|a key]|]; eexists _, _; reflexivity.
  - intros key -> Hkey. rewrite cloud_login_eq, Hfind. simpl. rewrite Hc.
    destruct key as [|a key]; [congruence|].
    eexists _, _; reflexivity.
Qed.

Lemma seeded_admin_can_log_in_witness :
  exists token id,
    Cloud.login sample_compare (Some "k") 1700000000123
      {| login_email := "admin@gmail.com"; login_password := "admin123" |}
      (Cloud.seedAdmin sample_hash empty_world)
    = (json (JLogin token id (Some "Admin")),
       Cloud.seedAdmin sample_hash empty_world).
Proof.
  destruct (seeded_admin_can_log_in sample_hash sample_compare (Some "k")
              1700000000123 empty_world eq_refl eq_refl) as [_ Hcloud].
  exact (Hcloud "k" eq_refl ltac:(discriminate)).
Defined.

(** X6.  A login never changes the world, and its answer tells whether the
    email is registered: the message is "Invalid credentials" exactly when
    no user has the email (a registered email with a wrong password gets
    "Wrong password" instead). *)
Theorem login_reveals_registered_emails
    (c : string -> string -> bool) (env : option string) (now : Z)
    (req : LoginRequest) (w : World) :
  let cloud := Cloud.login c env now req w in
  let local := Local.login c env now req w in
  cloud.2 = w /\ local.2 = w
  /\ (body cloud.1 = JError "Invalid credentials"
      <-> List.find (has_email (login_email req)) (users w) = None)
  /\ (local.1 = Some (status_json 400 (JError "Invalid credentials"))
      <-> List.find (has_email (login_email req)) (users w) = None).
Proof.
  intros cloud local. subst cloud local.
  rewrite local_login_eq, !cloud_login_eq. unfold answered. simpl.
  split; [reflexivity|]. split; [reflexivity|].
  destruct (List.find (has_email (login_email req)) (users w)) as [u|].
  - destruct (c (login_password req) (User.password u)).
    + unfold Local.JWT_SECRET, env_or.
      destruct env as [[|a key]|]; simpl; split; split; discriminate.
    + split; split; discriminate.
  - split; split; reflexivity.
Qed.

(** X7.  With correct credentials and no signing secret in the environment
    (unset or empty), the second server answers 500, while [server.js]
    issues a token signed with the built-in key "mysecret". *)
Theorem login_without_configured_secret
    (c : string -> string -> bool) (env : option string) (now : Z)
    (req : LoginRequest) (w : World) (u : User.t) :
  List.find (has_email (login_email req)) (users w) = Some u ->
  c (login_password req) (User.password u) = true ->
  env = None \/ env = Some "" ->
  Cloud.login c env now req w
    = (status_json 500 (JError "Internal server error"), w)
  /\ exists token,
      Local.login c env now req w
      = (Some (json (JLogin token (User._id u) (User.username u))), w)
      /\ tok_key token = "mysecret".
Proof.
  intros Hfind Hc Henv.
  rewrite local_login_eq, !cloud_login_eq, Hfind, Hc.
  destruct Henv as [-> | ->]; (split; [reflexivity|]);
    eexists; split; reflexivity.
Qed.

Lemma login_without_configured_secret_witness :
  Cloud.login sample_compare None 1700000000123
    {| login_email := "admin@gmail.com"; login_password := "admin123" |}
    one_user
  = (status_json 500 (JError "Internal server error"), one_user).
Proof.
  apply (login_without_configured_secret sample_compare None 1700000000123
           {| login_email := "admin@gmail.com"; login_password := "admin123" |}
           one_user admin eq_refl eq_refl).
  left. reflexivity.
Defined.

(** ** What each product route does, case by case *)

Lemma cloud_post_eq (reply : Cloud.CloudinaryReply) (now : Z)
    (req : ProductRequest) (w : World) :
  Cloud.post_products reply now req w
  = if JS.isNaN (JS.parseFloat (f_price (req_body req))) then
      (status_json 400 (JError "Price must be a valid number"), w)
    else
      match req_image req with
      | None =>
          let d := created w now (req_body req) (f_category (req_body req)) "" in
          (status_json 201 (JProduct d), set_products (insert d.1 d.2) w)
      | Some file =>
          match reply with
          | Cloud.cb_error _ =>
              (status_json 500 (JError "Internal server error"), w)
          | Cloud.cb_result url =>
              let d := created w now (req_body req)
                         (f_category (req_body req)) url in
              (status_json 201 (JProduct d),
               set_products (insert d.1 d.2)
                 (set_blobs (insert url {| folder := "products";
                                           content := buffer file |}) w))
          end
      end.
Proof.
  run. destruct (JS.isNaN _); [reflexivity|].
  destruct (req_image req) as [file|]; [|reflexivity].
  destruct reply; reflexivity.
Qed.

Lemma local_post_eq (upload_now now : Z) (req : ProductRequest) (w : World) :
  Local.post_products upload_now now req w
  = let w1 :=
      match req_image req with
      | Some f =>
          set_blobs (insert ("/uploads/" +:+ disk_name upload_now f)
                       {| folder := "uploads/"; content := buffer f |}) w
      | None => w
      end in
    if JS.isNaN (JS.parseFloat (f_price (req_body req))) then
      (status_json 400 (JError "Price must be a valid number"), w1)
    else
      let image :=
        match req_image req with
        | Some f => "/uploads/" +:+ disk_name upload_now f
        | None => ""
        end in
      let d := created w now (req_body req) None image in
      (status_json 201 (JProduct d), set_products (insert d.1 d.2) w1).
Proof.
  run. destruct (req_image req) as [file|];
    destruct (JS.isNaN _); reflexivity.
Qed.

Lemma cloud_put_eq (reply : Cloud.CloudinaryReply) (id : string)
    (req : ProductRequest) (w : World) :
  Cloud.put_product reply id req w
  = let body := req_body req in
    let lookup (image : option string) (w1 : World) :=
      match castObjectId id with
      | None => (status_json 500 (JError "Internal server error"), w1)
      | Some oid =>
          match products w !! oid with
          | None => (status_json 404 (JError "Product not found"), w1)
          | Some p =>
              let p' :=
                apply_update
                  {| u_name := f_name body; u_description := f_description body;
                     u_price := Some (JS.parseFloat (f_price body));
                     u_category := f_category body; u_image := image |} p in
              (json (JProduct (oid, p')), set_products (insert oid p') w1)
          end
      end in
    if JS.isNaN (JS.parseFloat (f_price body)) then
      (status_json 400 (JError "Price must be a valid number"), w)
    else
      match req_image req with
      | None => lookup None w
      | Some file =>
          match reply with
          | Cloud.cb_error _ =>
              (status_json 500 (JError "Internal server error"), w)
          | Cloud.cb_result url =>
              lookup (Some url)
                (set_blobs (insert url {| folder := "products";
                                          content := buffer file |}) w)
          end
      end.
Proof.
  run. destruct (JS.isNaN _); [reflexivity|].
  destruct (req_image req) as [file|]; [destruct reply; [reflexivity|]|];
    simpl; destruct (castObjectId id) as [oid|]; simpl; try reflexivity;
    destruct (products w !! oid); reflexivity.
Qed.

Lemma delete_eq (id : string) (w : World) :
  let outcome (failure : string) :=
    match castObjectId id with
    | None => (status_json 500 (JError failure), w)
    | Some oid =>
        match products w !! oid with
        | None => (status_json 404 (JError "Product not found"), w)
        | Some p =>
            (json (JMessage "Product deleted"), set_products (delete oid) w)
        end
    end in
  Cloud.delete_product id w = outcome "Internal server error"
  /\ Local.delete_product id w = outcome "Server error".
Proof.
  run. destruct (castObjectId id) as [oid|]; simpl; [|split; reflexivity].
  destruct (products w !! oid); split; reflexivity.
Qed.

(** ** Updates with a file *)

(** X8.  When the upload of the file attached to an update fails, the
    request is answered with 500 and nothing is changed, whether or not the
    id names a product: no field of the product is updated. *)
Theorem failed_upload_updates_nothing
    (message id : string) (req : ProductRequest) (file : FilePart) (w : World) :
  req_image req = Some file ->
  JS.isNaN (JS.parseFloat (f_price (req_body req))) = false ->
  Cloud.put_product (Cloud.cb_error message) id req w
  = (status_json 500 (JError "Internal server error"), w).
Proof.
  intros Hfile Hnan. rewrite cloud_put_eq. simpl. rewrite Hnan, Hfile.
  reflexivity.
Qed.

Lemma failed_upload_updates_nothing_witness :
  Cloud.put_product (Cloud.cb_error "timeout") id0
    (pen_request (Some "2") (Some pen_png)) one_pen
  = (status_json 500 (JError "Internal server error"), one_pen).
Proof.
  apply (failed_upload_updates_nothing "timeout" id0
           (pen_request (Some "2") (Some pen_png)) pen_png one_pen);
    reflexivity.
Defined.

(** X9.  An update with a file on an existing product, once Cloudinary has
    stored the file, answers 200 with the updated document: its image is
    the URL Cloudinary returned, the blob store holds the file under that
    URL in the folder [products], and the creation date is the old one. *)
Theorem update_with_file_replaces_image
    (url id : string) (req : ProductRequest) (file : FilePart) (w : World)
    (oid : ObjectId) (p : Product.t) :
  req_image req = Some file ->
  JS.isNaN (JS.parseFloat (f_price (req_body req))) = false ->
  castObjectId id = Some oid ->
  products w !! oid = Some p ->
  let out := Cloud.put_product (Cloud.cb_result url) id req w in
  exists p',
    out.1 = json (JProduct (oid, p'))
    /\ products out.2 !! oid = Some p'
    /\ Product.image p' = Some url
    /\ Product.date p' = Product.date p
    /\ Product.price p' = Some (JS.parseFloat (f_price (req_body req)))
    /\ blobs out.2 !! url
       = Some {| folder := "products"; content := buffer file |}.
Proof.
  intros Hfile Hnan Hid Hp. rewrite cloud_put_eq. simpl.
  rewrite Hnan, Hfile, Hid, Hp. simpl.
  eexists. split; [reflexivity|].
  split; [apply lookup_insert_eq|].
  repeat split. apply lookup_insert_eq.
Qed.

Lemma update_with_file_replaces_image_witness :
  let out := Cloud.put_product (Cloud.cb_result "https://res.example/products/b.png")
               id0 (pen_request (Some "2") (Some pen_png)) one_pen in
  exists p',
    products out.2 !! 0%N = Some p'
    /\ Product.image p' = Some "https://res.example/products/b.png".
Proof.
  intros out.
  destruct (update_with_file_replaces_image "https://res.example/products/b.png"
              id0 (pen_request (Some "2") (Some pen_png)) pen_png one_pen 0%N
              {| Product.name := Some "Pen";
                 Product.description := Some "Blue ink";
                 Product.price := Some (JS.parseFloat (Some "1.50"));
                 Product.category := Some "stationery";
                 Product.image := Some "https://res.example/products/pen.png";
                 Product.date := 1700000000000 |})
    as (p' & _ & Hp' & Himage & _);
    [reflexivity | reflexivity | reflexivity | reflexivity |].
  exists p'. split; [exact Hp' | exact Himage].
Defined.

(** X10.  The file of an update is uploaded before the product is looked
    up: when the id names no product (it does not cast, or nothing is
    stored under it), the request fails with 500 or 404 and changes no
    product, yet the uploaded file is in the blob store afterwards. *)
Theorem update_of_missing_product_keeps_the_upload
    (url id : string) (req : ProductRequest) (file : FilePart) (w : World) :
  req_image req = Some file ->
  JS.isNaN (JS.parseFloat (f_price (req_body req))) = false ->
  (forall oid, castObjectId id = Some oid -> products w !! oid = None) ->
  let out := Cloud.put_product (Cloud.cb_result url) id req w in
  (status out.1 = 500 \/ status out.1 = 404)
  /\ products out.2 = products w
  /\ blobs out.2
     = <[url := {| folder := "products"; content := buffer file |}]> (blobs w).
Proof.
  intros Hfile Hnan Hmissing. rewrite cloud_put_eq. simpl.
  rewrite Hnan, Hfile.
  destruct (castObjectId id) as [oid|]; simpl.
  - rewrite (Hmissing oid eq_refl). simpl. auto.
  - auto.
Qed.

Lemma update_of_missing_product_keeps_the_upload_witness :
  let out := Cloud.put_product (Cloud.cb_result "https://res.example/products/b.png")
               id7 (pen_request (Some "2") (Some pen_png)) one_pen in
  blobs out.2
  = <["https://res.example/products/b.png" :=
        {| folder := "products"; content := buffer pen_png |}]> (blobs one_pen).
Proof.
  intros out.
  apply (update_of_missing_product_keeps_the_upload
           "https://res.example/products/b.png" id7
           (pen_request (Some "2") (Some pen_png)) pen_png one_pen);
    [reflexivity | reflexivity |].
  intros oid [= <-]. reflexivity.
Defined.

(** ** What no sequence of requests breaks *)

Lemma local_get_eq (w : World) :
  Local.get_products w = answered (Cloud.get_products w)
  /\ (Cloud.get_products w).2 = w.
Proof. split; reflexivity. Qed.

Ltac by_route r w :=
  destruct r as [h req|c env now req| |t now req|id
                |h req|c env now req| |reply now req|reply id req|id];
  unfold serve, answered;
  rewrite ?local_register_eq, ?cloud_register_eq, ?local_login_eq,
    ?cloud_login_eq, ?local_post_eq, ?cloud_post_eq, ?cloud_put_eq;
  try (destruct (delete_eq id w) as [Hcloud Hlocal]; simpl in Hcloud, Hlocal;
       rewrite ?Hcloud, ?Hlocal; clear Hcloud Hlocal);
  try (destruct (local_get_eq w) as [Hlist Hsame]; rewrite ?Hlist, ?Hsame;
       clear Hlist Hsame);
  unfold answered; simpl.

Lemma serve_users (r : Route) (w : World) :
  users (serve r w).2 = users w
  \/ exists name email hashed,
       List.find (has_email email) (users w) = None
       /\ users (serve r w).2 = (users w ++ [signed_up w name email hashed])%list.
Proof.
  by_route r w;
    try (destruct (List.find (has_email (reg_email req)) (users w)) eqn:Hfind;
         simpl; [left; reflexivity | right; eauto]);
    try (left; reflexivity);
    repeat match goal with
    | |- context [if ?b then _ else _] => destruct b; simpl
    | |- context [match ?x with _ => _ end] => destruct x; simpl
    end; left; reflexivity.
Qed.

Lemma serve_blobs (r : Route) (w : World) :
  blobs (serve r w).2 = blobs w
  \/ exists ref b, blobs (serve r w).2 = <[ref := b]> (blobs w).
Proof.
  by_route r w; try (left; reflexivity);
    repeat match goal with
    | |- context [if ?b then _ else _] => destruct b; simpl
    | |- context [match ?x with _ => _ end] => destruct x; simpl
    end; solve [left; reflexivity | right; eauto].
Qed.

Lemma serve_all_snoc (rs : list Route) (r : Route) (w : World) :
  serve_all (rs ++ [r]) w = (serve r (serve_all rs w)).2.
Proof. unfold serve_all. rewrite fold_left_app. reflexivity. Qed.

(** X11.  No sequence of requests removes or alters a stored user: the
    users present before are still there, in the same order and with the
    same fields, at the start of the collection. *)
Theorem users_are_only_appended (rs : list Route) (w : World) :
  users w `prefix_of` users (serve_all rs w).
Proof.
  induction rs as [|r rs IH] using rev_ind; [reflexivity|].
  rewrite serve_all_snoc. etransitivity; [exact IH|].
  destruct (serve_users r (serve_all rs w)) as [-> | (n & e & hd & _ & ->)].
  - reflexivity.
  - apply prefix_app_r. reflexivity.
Qed.

(** X13.  No request ever removes a blob: every reference stored before a
    sequence of requests is still stored after it.  In particular deleting
    a product, or replacing its image, leaves the old file in the store. *)
Theorem blobs_are_never_removed (rs : list Route) (w : World) :
  dom (blobs w) ⊆ dom (blobs (serve_all rs w)).
Proof.
  induction rs as [|r rs IH] using rev_ind; [reflexivity|].
  rewrite serve_all_snoc. etransitivity; [exact IH|].
  destruct (serve_blobs r (serve_all rs w)) as [-> | (ref & b & ->)];
    [reflexivity|].
  rewrite dom_insert_L. set_solver.
Qed.

Lemma images_resolve_blob (w : World) (ref : string) (b : Blob) :
  images_resolve w -> images_resolve (set_blobs (insert ref b) w).
Proof.
  intros Hw id p r Hp Himage. simpl in *.
  destruct (Hw id p r Hp Himage) as [-> | Hsome]; [left; reflexivity|].
  right. apply lookup_insert_is_Some'. right. exact Hsome.
Qed.

Lemma images_resolve_insert (w : World) (id : ObjectId) (p : Product.t) :
  images_resolve w ->
  (forall ref, Product.image p = Some ref ->
               ref = "" \/ is_Some (blobs w !! ref)) ->
  images_resolve (set_products (insert id p) w).
Proof.
  intros Hw Hp id' p' r Hlookup Himage. simpl in *.
  destruct (decide (id = id')) as [<- | Hne].
  - rewrite lookup_insert_eq in Hlookup. injection Hlookup as <-. auto.
  - rewrite lookup_insert_ne in Hlookup by exact Hne. eauto.
Qed.

Lemma images_resolve_delete (w : World) (id : ObjectId) :
  images_resolve w -> images_resolve (set_products (delete id) w).
Proof.
  intros Hw id' p r Hlookup Himage. simpl in *.
  destruct (decide (id = id')) as [<- | Hne].
  - rewrite lookup_delete_eq in Hlookup. discriminate.
  - rewrite lookup_delete_ne in Hlookup by exact Hne. eauto.
Qed.

Ltac keep_resolving Hw :=
  first
    [ exact Hw
    | apply images_resolve_blob; exact Hw
    | apply images_resolve_delete; exact Hw
    | apply images_resolve_insert;
      [ first [exact Hw | apply images_resolve_blob; exact Hw]
      | simpl; intros ref Href ] ].

Lemma serve_images_resolve (r : Route) (w : World) :
  images_resolve w -> images_resolve (serve r w).2.
Proof.
  intros Hw. by_route r w; try exact Hw.
  - (* Local.register *)
    destruct (List.find _ (users w)); exact Hw.
  - (* Local.post_products *)
    destruct (req_image req) as [file|]; destruct (JS.isNaN _); simpl;
      keep_resolving Hw; injection Href as <-.
    + right. rewrite lookup_insert_eq. eauto.
    + left. reflexivity.
  - (* Local.delete_product *)
    destruct (castObjectId id) as [oid|]; [|exact Hw].
    destruct (products w !! oid); simpl; keep_resolving Hw.
  - (* Cloud.register *)
    destruct (List.find _ (users w)); exact Hw.
  - (* Cloud.post_products *)
    destruct (JS.isNaN _); [exact Hw|].
    destruct (req_image req) as [file|]; [destruct reply; [exact Hw|]|]; simpl;
      keep_resolving Hw; injection Href as <-.
    + right. rewrite lookup_insert_eq. eauto.
    + left. reflexivity.
  - (* Cloud.put_product *)
    destruct (JS.isNaN _); [exact Hw|].
    destruct (req_image req) as [file|]; [destruct reply; [exact Hw|]|]; simpl;
      (destruct (castObjectId id) as [oid|]; [|keep_resolving Hw]);
      (destruct (products w !! oid) as [p|] eqn:Hp; simpl; keep_resolving Hw).
    + injection Href as <-. right. rewrite lookup_insert_eq. eauto.
    + exact (Hw oid p ref Hp Href).
  - (* Cloud.delete_product *)
    destruct (castObjectId id) as [oid|]; [|exact Hw].
    destruct (products w !! oid); simpl; keep_resolving Hw.
Qed.

(** X14.  When every stored product's image is empty or the reference of a
    stored blob, this is still so after any sequence of requests to either
    server: no request leaves a product pointing at a file that was not
    stored. *)
Theorem images_always_resolve (rs : list Route) (w : World) :
  images_resolve w -> images_resolve (serve_all rs w).
Proof.
  intros Hw. induction rs as [|r rs IH] using rev_ind; [exact Hw|].
  rewrite serve_all_snoc. apply serve_images_resolve. exact IH.
Qed.

Lemma images_always_resolve_witness :
  images_resolve
    (serve_all
       [CloudCreate (Cloud.cb_result "https://res.example/products/a.png")
          1700000000000 (pen_request (Some "1.50") (Some pen_png));
        LocalCreate 1700000000001 1700000000002
          (pen_request (Some "2") (Some pen_png));
        CloudUpdate (Cloud.cb_error "timeout") id0
          (pen_request (Some "3") (Some pen_png));
        CloudDelete id0] empty_world).
Proof.
  apply images_always_resolve.
  intros id p ref Hp. simpl in Hp. rewrite lookup_empty in Hp. discriminate.
Defined.

(** ** Frames of update and creation *)

(** X15.  An update, whatever its outcome, never adds or removes a product,
    never changes a creation date, never changes a product other than the
    one its id names, and never touches a user. *)
Theorem update_touches_one_product
    (reply : Cloud.CloudinaryReply) (id : string) (req : ProductRequest)
    (w : World) :
  let out := Cloud.put_product reply id req w in
  dom (products out.2) = dom (products w)
  /\ users out.2 = users w
  /\ forall oid p', products out.2 !! oid = Some p' ->
       exists p, products w !! oid = Some p
                 /\ Product.date p' = Product.date p
                 /\ (castObjectId id <> Some oid -> p' = p).
Proof.
  intros out. subst out. rewrite cloud_put_eq. simpl.
  assert (Hsame : forall w1 : World, products w1 = products w ->
            forall oid p', products w1 !! oid = Some p' ->
              exists p, products w !! oid = Some p
                        /\ Product.date p' = Product.date p
                        /\ (castObjectId id <> Some oid -> p' = p)).
  { intros w1 -> oid p' Hp'. eauto. }
  destruct (JS.isNaN _); [repeat split; eauto|].
  destruct (req_image req) as [file|];
    [destruct reply as [msg|url]; [repeat split; eauto|]|];
    (destruct (castObjectId id) as [target|]; [|repeat split; eauto]);
    (destruct (products w !! target) as [p|] eqn:Hp; [|repeat split; eauto]);
    simpl; (split; [apply dom_insert_lookup_L; eauto|]);
    (split; [reflexivity|]); intros oid p' Hp';
    (destruct (decide (target = oid)) as [<- | Hne];
     [ rewrite lookup_insert_eq in Hp'; injection Hp' as <-;
       exists p; repeat split; [exact Hp | congruence]
     | rewrite lookup_insert_ne in Hp' by exact Hne; eauto ]).
Qed.

(** X16.  A create request answered with 201 adds exactly one product and
    keeps every product that was stored; answered otherwise, it leaves the
    products as they were.  It never touches a user. *)
Theorem create_adds_one_product
    (reply : Cloud.CloudinaryReply) (upload_now now : Z)
    (req : ProductRequest) (w : World) :
  let frame (out : Response * World) :=
    users out.2 = users w
    /\ (forall id p, products w !! id = Some p -> products out.2 !! id = Some p)
    /\ size (products out.2)
       = if decide (status out.1 = 201) then S (size (products w))
         else size (products w) in
  frame (Cloud.post_products reply now req w)
  /\ frame (Local.post_products upload_now now req w).
Proof.
  intros frame. subst frame. rewrite cloud_post_eq, local_post_eq. simpl.
  assert (Hadd : forall (m : gmap ObjectId Product.t) p,
            (forall id q, m !! id = Some q -> <[fresh (dom m) := p]> m !! id = Some q)
            /\ size (<[fresh (dom m) := p]> m) = S (size m)).
  { intros m p. split.
    - intros id q Hq. rewrite lookup_insert_ne; [exact Hq|].
      intros <-. rewrite (proj1 (not_elem_of_dom _ _) (is_fresh (dom m))) in Hq.
      discriminate.
    - apply map_size_insert_None, not_elem_of_dom, is_fresh. }
  split.
  - destruct (JS.isNaN _); [repeat split; auto|].
    destruct (req_image req) as [file|];
      [destruct reply; [repeat split; auto|]|]; simpl;
      (split; [reflexivity|]); apply Hadd.
  - destruct (req_image req) as [file|]; destruct (JS.isNaN _); simpl;
      try (repeat split; auto; fail);
      (split; [reflexivity|]); apply Hadd.
Qed.

(** ** How the product routes compose *)

Lemma newest_is_listed_first (m : gmap ObjectId Product.t)
    (id : ObjectId) (p : Product.t) :
  (forall i q, m !! i = Some q -> Product.date q < Product.date p) ->
  exists rest,
    merge_sort newer (map_to_list (<[id := p]> m)) = (id, p) :: rest.
Proof.
  intros Holder.
  pose proof (merge_sort_Permutation newer (map_to_list (<[id := p]> m)))
    as Hperm.
  pose proof (@StronglySorted_merge_sort _ newer _ newer_transitive
                newer_total (map_to_list (<[id := p]> m))) as Hsorted.
  assert (Hin : (id, p) ∈ merge_sort newer (map_to_list (<[id := p]> m))).
  { rewrite Hperm. apply elem_of_map_to_list, lookup_insert_eq. }
  destruct (merge_sort newer (map_to_list (<[id := p]> m))) as [|[i q] rest].
  - apply not_elem_of_nil in Hin. contradiction.
  - exists rest. f_equal.
    assert (Hhead : <[id := p]> m !! i = Some q).
    { apply elem_of_map_to_list. rewrite <- Hperm. left. }
    destruct (decide (id = i)) as [<- | Hne].
    + rewrite lookup_insert_eq in Hhead. congruence.
    + rewrite lookup_insert_ne in Hhead by exact Hne.
      apply Holder in Hhead.
      apply elem_of_cons in Hin as [Heq | Hrest]; [congruence|].
      apply StronglySorted_inv in Hsorted as [_ Hall].
      rewrite Forall_forall in Hall. apply Hall in Hrest.
      unfold newer in Hrest. simpl in Hrest. lia.
Qed.

(** X17.  A product created at a time later than the date of every stored
    product is the first one of the list served right after, on either
    server (on the second server, provided the upload step did not
    fail). *)
Theorem created_product_is_listed_first
    (reply : Cloud.CloudinaryReply) (upload_now now : Z)
    (req : ProductRequest) (w : World) :
  JS.isNaN (JS.parseFloat (f_price (req_body req))) = false ->
  (forall id p, products w !! id = Some p -> Product.date p < now) ->
  (exists d rest,
     (Local.post_products upload_now now req w).1 = status_json 201 (JProduct d)
     /\ (Local.get_products (Local.post_products upload_now now req w).2).1
        = Some (json (JProducts (d :: rest))))
  /\ (upload_succeeds reply req ->
      exists d rest,
        (Cloud.post_products reply now req w).1 = status_json 201 (JProduct d)
        /\ (Cloud.get_products (Cloud.post_products reply now req w).2).1
           = json (JProducts (d :: rest))).
Proof.
  intros Hnan Hdates. rewrite local_post_eq, cloud_post_eq. simpl.
  rewrite Hnan.
  assert (Hlist : forall (image : string) (category : option string),
            exists rest,
              merge_sort newer
                (map_to_list (<[(created w now (req_body req) category image).1
                                := (created w now (req_body req) category image).2]>
                                (products w)))
              = created w now (req_body req) category image :: rest).
  { intros image category. apply newest_is_listed_first. exact Hdates. }
  split.
  - destruct (req_image req) as [file|]; simpl;
      [destruct (Hlist ("/uploads/" +:+ disk_name upload_now file) None) as [rest Hrest]
      |destruct (Hlist "" None) as [rest Hrest]];
      eexists _, rest; (split; [reflexivity|]);
      unfold Local.get_products, no_catch, Product_find_sort, get_world,
        mbind, M_bind, mret, M_ret; simpl; simpl in Hrest; rewrite Hrest;
      reflexivity.
  - intros [Hfile | [url ->]].
    + rewrite Hfile. simpl.
      destruct (Hlist "" (f_category (req_body req))) as [rest Hrest].
      eexists _, rest. split; [reflexivity|].
      unfold Cloud.get_products, try_catch, Product_find_sort, get_world,
        mbind, M_bind, mret, M_ret; simpl; simpl in Hrest; rewrite Hrest.
      reflexivity.
    + destruct (req_image req) as [file|]; simpl;
        [destruct (Hlist url (f_category (req_body req))) as [rest Hrest]
        |destruct (Hlist "" (f_category (req_body req))) as [rest Hrest]];
        eexists _, rest; (split; [reflexivity|]);
        unfold Cloud.get_products, try_catch, Product_find_sort, get_world,
          mbind, M_bind, mret, M_ret; simpl; simpl in Hrest; rewrite Hrest;
        reflexivity.
Qed.

Lemma created_product_is_listed_first_witness :
  exists d rest,
    (Cloud.post_products (Cloud.cb_error "unused") 1700000000999
       (pen_request (Some "3") None) one_pen).1 = status_json 201 (JProduct d)
    /\ (Cloud.get_products
          (Cloud.post_products (Cloud.cb_error "unused") 1700000000999
             (pen_request (Some "3") None) one_pen).2).1
       = json (JProducts (d :: rest)).
Proof.
  destruct (created_product_is_listed_first (Cloud.cb_error "unused") 0
              1700000000999 (pen_request (Some "3") None) one_pen)
    as [_ Hcloud].
  - reflexivity.
  - intros id p Hp.
    destruct (decide (id = 0%N)) as [-> | Hne].
    + vm_compute in Hp. injection Hp as <-. reflexivity.
    + unfold one_pen in Hp. rewrite cloud_post_eq in Hp. simpl in Hp.
      rewrite lookup_insert_ne in Hp by (intros H; apply Hne; rewrite <- H; reflexivity).
      rewrite lookup_empty in Hp. discriminate.
  - apply Hcloud. left. reflexivity.
Defined.

(** X18.  Deleting a product that was just created, by the id the create
    response shows, answers 200 and gives back the product collection as it
    was before the creation; deleting it a second time answers 404. *)
Theorem create_then_delete
    (reply : Cloud.CloudinaryReply) (now : Z) (req : ProductRequest)
    (w : World) (id : string) (oid : ObjectId) (p : Product.t) :
  (Cloud.post_products reply now req w).1 = status_json 201 (JProduct (oid, p)) ->
  castObjectId id = Some oid ->
  let created := (Cloud.post_products reply now req w).2 in
  let deleted := Cloud.delete_product id created in
  deleted.1 = json (JMessage "Product deleted")
  /\ products deleted.2 = products w
  /\ blobs deleted.2 = blobs created
  /\ NotFoundError (Cloud.delete_product id deleted.2).1.
Proof.
  intros Hcreated Hid created deleted. subst deleted created.
  revert Hcreated. rewrite cloud_post_eq. simpl.
  assert (Hdel : forall w1 : World,
            products w1 = <[oid := p]> (products w) ->
            products w !! oid = None ->
            (Cloud.delete_product id w1).1 = json (JMessage "Product deleted")
            /\ products (Cloud.delete_product id w1).2 = products w
            /\ blobs (Cloud.delete_product id w1).2 = blobs w1
            /\ NotFoundError
                 (Cloud.delete_product id (Cloud.delete_product id w1).2).1).
  { intros w1 Hw1 Hfresh.
    destruct (delete_eq id w1) as [Hfirst _]. simpl in Hfirst.
    rewrite Hid, Hw1, lookup_insert_eq in Hfirst. rewrite Hfirst. simpl.
    rewrite Hw1, delete_insert_id by exact Hfresh.
    repeat split.
    destruct (delete_eq id (set_products (delete oid) w1)) as [Hsecond _].
    simpl in Hsecond. rewrite Hid, lookup_delete_eq in Hsecond.
    rewrite Hsecond. reflexivity. }
  destruct (JS.isNaN _); [discriminate|].
  destruct (req_image req) as [file|];
    [destruct reply as [msg|url]; [discriminate|]|];
    intros Hc; simpl in Hc; injection Hc as <- <-; apply Hdel;
    solve [reflexivity | apply fresh_id_unused].
Qed.

Lemma create_then_delete_witness :
  let created := (Cloud.post_products (Cloud.cb_error "unused") 5
                    (pen_request (Some "3") None) empty_world).2 in
  let deleted := Cloud.delete_product id0 created in
  deleted.1 = json (JMessage "Product deleted")
  /\ products deleted.2 = products empty_world.
Proof.
  intros created deleted.
  destruct (create_then_delete (Cloud.cb_error "unused") 5
              (pen_request (Some "3") None) empty_world id0 0%N
              {| Product.name := Some "Pen";
                 Product.description := Some "Blue ink";
                 Product.price := Some (JS.parseFloat (Some "3"));
                 Product.category := Some "stationery";
                 Product.image := Some "";
                 Product.date := 5 |} eq_refl eq_refl)
    as (Hstatus & Hproducts & _).
  split; [exact Hstatus | exact Hproducts].
Defined.

(** ** File names on the local disk *)

(** X19.  On the local-disk server two uploads whose middleware runs in the
    same millisecond and whose original names have the same extension get
    the same file name: both products are created, both point at the same
    path, and the file behind it is the second upload. *)
Theorem same_millisecond_uploads_collide
    (upload_now now1 now2 : Z) (req1 req2 : ProductRequest)
    (file1 file2 : FilePart) (w : World) :
  req_image req1 = Some file1 ->
  req_image req2 = Some file2 ->
  extname (originalname file1) = extname (originalname file2) ->
  JS.isNaN (JS.parseFloat (f_price (req_body req1))) = false ->
  JS.isNaN (JS.parseFloat (f_price (req_body req2))) = false ->
  let out1 := Local.post_products upload_now now1 req1 w in
  let out2 := Local.post_products upload_now now2 req2 out1.2 in
  exists d1 d2 ref,
    out1.1 = status_json 201 (JProduct d1)
    /\ out2.1 = status_json 201 (JProduct d2)
    /\ d1.1 <> d2.1
    /\ products out2.2 !! d1.1 = Some d1.2
    /\ products out2.2 !! d2.1 = Some d2.2
    /\ Product.image d1.2 = Some ref
    /\ Product.image d2.2 = Some ref
    /\ blobs out2.2 !! ref
       = Some {| folder := "uploads/"; content := buffer file2 |}.
Proof.
  intros Hfile1 Hfile2 Hext Hnan1 Hnan2 out1 out2. subst out2 out1.
  rewrite !local_post_eq. simpl. rewrite Hfile1, Hnan1. simpl.
  rewrite Hfile2, Hnan2. simpl.
  assert (Hname : disk_name upload_now file1 = disk_name upload_now file2).
  { unfold disk_name. rewrite Hext. reflexivity. }
  eexists _, _, _. split; [reflexivity|]. split; [reflexivity|]. simpl.
  assert (Hne : fresh (dom (products w))
                <> fresh (dom (<[fresh (dom (products w)) :=
                     (created w now1 (req_body req1) None
                        ("/uploads/" +:+ disk_name upload_now file1)).2]>
                     (products w)))).
  { intros Heq.
    apply (is_fresh (dom (<[fresh (dom (products w)) :=
                     (created w now1 (req_body req1) None
                        ("/uploads/" +:+ disk_name upload_now file1)).2]>
                     (products w)))).
    rewrite <- Heq. rewrite dom_insert_L. set_solver. }
  split; [exact Hne|].
  split; [rewrite lookup_insert_ne by (intros H; apply Hne; symmetry; exact H);
          apply lookup_insert_eq|].
  split; [apply lookup_insert_eq|].
  split; [reflexivity|].
  split; [rewrite Hname; reflexivity|].
  rewrite Hname. apply lookup_insert_eq.
Qed.

Lemma same_millisecond_uploads_collide_witness :
  let other := {| originalname := "ink.png"; buffer := [Byte.x01] |} in
  let out1 := Local.post_products 1700000000000 1700000000001
                (pen_request (Some "1.50") (Some pen_png)) empty_world in
  let out2 := Local.post_products 1700000000000 1700000000002
                (pen_request (Some "2") (Some other)) out1.2 in
  exists d1 d2 ref,
    out1.1 = status_json 201 (JProduct d1)
    /\ out2.1 = status_json 201 (JProduct d2)
    /\ d1.1 <> d2.1
    /\ products out2.2 !! d1.1 = Some d1.2
    /\ products out2.2 !! d2.1 = Some d2.2
    /\ Product.image d1.2 = Some ref
    /\ Product.image d2.2 = Some ref
    /\ blobs out2.2 !! ref = Some {| folder := "uploads/"; content := [Byte.x01] |}.
Proof.
  intros other.
  apply (same_millisecond_uploads_collide 1700000000000 1700000000001
           1700000000002 (pen_request (Some "1.50") (Some pen_png))
           (pen_request (Some "2") (Some other)) pen_png other empty_world);
    reflexivity.
Defined.

Lemma from_last_dot_app (base ext : string) :
  from_last_dot ext = None ->
  from_last_dot (base +:+ String "." ext) = Some (String "." ext).
Proof.
  intros Hext. induction base as [|c base IH]; simpl.
  - rewrite Hext. reflexivity.
  - rewrite IH. reflexivity.
Qed.

Lemma append_dot_length (base ext : string) :
  String.length (base +:+ String "." ext)
  = (String.length base + S (String.length ext))%nat.
Proof. induction base as [|c base IH]; simpl; [reflexivity | rewrite IH; reflexivity]. Qed.

(** X20.  The name under which the disk storage keeps a file is the upload
    time followed by the original extension: for an original name
    [base.ext] with a non-empty base and no dot in [ext] (and other than
    [".."]), it is the time, a dot and [ext].  When the original name is
    [".."], has no dot, or has its only dot in front, the stored name is
    the time alone. *)
Theorem disk_name_keeps_the_extension
    (upload_now : Z) (file : FilePart) (base ext : string) :
  originalname file = base +:+ String "." ext ->
  from_last_dot ext = None ->
  disk_name upload_now file
  = if (String.eqb base "" || String.eqb (originalname file) "..")%bool
    then pretty upload_now
    else pretty upload_now +:+ String "." ext.
Proof.
  intros Hname Hext. unfold disk_name, extname.
  rewrite Hname, from_last_dot_app by exact Hext.
  assert (Hnil : forall s : string, s +:+ "" = s).
  { intros s. induction s as [|x s IH]; [reflexivity|].
    change (String x (s +:+ "") = String x s). rewrite IH. reflexivity. }
  destruct base as [|c base].
  - simpl. rewrite String.eqb_refl. simpl. apply Hnil.
  - replace (String.eqb (String "." ext) (String c base +:+ String "." ext))
      with false.
    + simpl.
      match goal with
      | |- context [if ?b then _ else _] => destruct b
      end; [apply Hnil | reflexivity].
    + symmetry. apply String.eqb_neq. intros Heq.
      apply (f_equal String.length) in Heq. simpl in Heq.
      rewrite append_dot_length in Heq. lia.
Qed.

Lemma disk_name_keeps_the_extension_witness :
  disk_name 1700000000000 pen_png = "1700000000000.png".
Proof.
  apply (disk_name_keeps_the_extension 1700000000000 pen_png "pen" "png");
    reflexivity.
Defined.

(** ** How lenient the price check is *)

Lemma shr_1_nonneg (mrs : shr_record) :
  0 <= shr_m mrs -> 0 <= shr_m (shr_1 mrs).
Proof.
  destruct mrs as [m r s]. simpl.
  destruct m as [|[p|p|]|[p|p|]]; simpl; lia.
Qed.

Lemma iter_shr_1_nonneg (n : positive) (mrs : shr_record) :
  0 <= shr_m mrs -> 0 <= shr_m (SpecFloat.iter_pos shr_1 n mrs).
Proof.
  revert mrs. induction n as [n IH|n IH|]; intros mrs H; simpl.
  - apply IH, IH, shr_1_nonneg, H.
  - apply IH, IH, H.
  - apply shr_1_nonneg, H.
Qed.

Lemma shr_fexp_nonneg (m e : Z) (l : location) :
  0 <= m -> 0 <= shr_m (shr_fexp JS.prec JS.emax m e l).1.
Proof.
  intros Hm. unfold shr_fexp, shr.
  assert (H0 : 0 <= shr_m (shr_record_of_loc m l))
    by (destruct l as [|[]]; exact Hm).
  destruct (fexp JS.prec JS.emax (Zdigits2 m + e) - e); simpl;
    auto using iter_shr_1_nonneg.
Qed.

Lemma round_nearest_even_nonneg (m : Z) (l : location) :
  0 <= m -> 0 <= round_nearest_even m l.
Proof.
  intros Hm. destruct l as [|[]]; simpl; try destruct (Z.even m); lia.
Qed.

Lemma binary_round_aux_number (sx : bool) (mx ex : Z) (lx : location) :
  0 <= mx ->
  let v := binary_round_aux JS.prec JS.emax sx mx ex lx in
  JS.isNaN v = false /\ (sx = false -> JS.nonNegative v = true).
Proof.
  intros Hmx v. subst v. unfold binary_round_aux.
  pose proof (shr_fexp_nonneg mx ex lx Hmx) as H1.
  destruct (shr_fexp JS.prec JS.emax mx ex lx) as [mrs' e']. simpl in H1.
  pose proof (shr_fexp_nonneg
                (round_nearest_even (shr_m mrs') (loc_of_shr_record mrs')) e'
                loc_Exact (round_nearest_even_nonneg _ _ H1)) as H2.
  destruct (shr_fexp JS.prec JS.emax _ e' loc_Exact) as [mrs'' e''].
  simpl in H2.
  destruct (shr_m mrs'') as [|m|m]; [| |lia].
  - split; [reflexivity | intros _; reflexivity].
  - destruct (e'' <=? JS.emax - JS.prec); split; try reflexivity;
      intros ->; reflexivity.
Qed.

Lemma roundMV_number (neg : bool) (m : N) (e : Z) :
  JS.isNaN (JS.roundMV neg m e) = false
  /\ (neg = false -> JS.nonNegative (JS.roundMV neg m e) = true).
Proof.
  unfold JS.roundMV. destruct m as [|p]; [split; reflexivity|].
  destruct (0 <=? e) eqn:He.
  - apply Z.leb_le in He.
    assert (Hpos : 0 < Z.pos p * 10 ^ e)
      by (apply Z.mul_pos_pos; [lia | apply Z.pow_pos_nonneg; lia]).
    destruct (Z.pos p * 10 ^ e) as [|q|q]; try lia.
    unfold binary_normalize, binary_round.
    destruct neg; simpl;
      match goal with
      | |- context [shl_align ?a ?b ?c] => destruct (shl_align a b c) as [mz ez]
      end; apply binary_round_aux_number; lia.
  - apply Z.leb_gt in He.
    assert (Hd : 0 < 10 ^ (- e)) by (apply Z.pow_pos_nonneg; lia).
    pose proof (Z.div_pos (Z.pos p * 2 ^ (64 + Z.log2_up (10 ^ (- e))))
                  (10 ^ (- e))) as Hq.
    unfold Z.div in Hq.
    destruct (Z.div_eucl (Z.pos p * 2 ^ (64 + Z.log2_up (10 ^ (- e))))
                (10 ^ (- e))) as [q r].
    apply binary_round_aux_number. apply Hq; [|exact Hd].
    apply Z.mul_nonneg_nonneg; [lia | apply Z.pow_nonneg; lia].
Qed.

Lemma digit_starts_literal (c : ascii) (d : N) (s : string) :
  JS.digit_of c = Some d ->
  exists m e,
    JS.strUnsignedDecimalLiteral (String c s) = Some (JS.MVDecimal m e).
Proof.
  intros Hd. unfold JS.strUnsignedDecimalLiteral.
  replace (String.prefix "Infinity" (String c s)) with false
    by (destruct c as [[] [] [] [] [] [] [] []]; vm_compute in Hd;
        try discriminate Hd; reflexivity).
  cbn [JS.read_digits]. rewrite Hd.
  destruct (JS.read_digits s) as [ds r1].
  destruct (match r1 with
            | String "." r => JS.read_digits r
            | _ => ([], r1)
            end) as [fp r2].
  simpl. eauto.
Qed.

Lemma digit_starts_number (c : ascii) (d : N) (s : string) :
  JS.digit_of c = Some d ->
  exists m e, JS.parseFloat (Some (String c s)) = JS.roundMV false m e.
Proof.
  intros Hd.
  assert (Htrim : JS.trimStart (String c s) = String c s).
  { destruct c as [[] [] [] [] [] [] [] []]; vm_compute in Hd;
      try discriminate Hd;
      destruct s as [|c2 [|c3 s3]]; reflexivity. }
  unfold JS.parseFloat. rewrite Htrim.
  destruct (digit_starts_literal c d s Hd) as (m & e & Hlit). exists m, e.
  destruct c as [[] [] [] [] [] [] [] []]; vm_compute in Hd;
    try discriminate Hd; rewrite Hlit; reflexivity.
Qed.

Lemma minus_digit_starts_number (c : ascii) (d : N) (s : string) :
  JS.digit_of c = Some d ->
  exists m e,
    JS.parseFloat (Some (String "-" (String c s))) = JS.roundMV true m e.
Proof.
  intros Hd.
  assert (Htrim : JS.trimStart (String "-" (String c s))
                  = String "-" (String c s))
    by (destruct s as [|c3 s3]; reflexivity).
  unfold JS.parseFloat. rewrite Htrim.
  destruct (digit_starts_literal c d s Hd) as (m & e & Hlit). exists m, e.
  rewrite Hlit. reflexivity.
Qed.

Lemma blank_is_trimmed_away (s : string) :
  forallb JS.is_ws1 (list_ascii_of_string s) = true ->
  JS.trimStart s = "".
Proof.
  induction s as [|c s IH]; [reflexivity|].
  simpl. intros H. apply andb_prop in H as [Hc Hs].
  rewrite Hc. apply IH, Hs.
Qed.

(** X21.  A price whose text starts with a decimal digit is never rejected,
    whatever follows the digits ("12abc", "1,000", "5 dollars"): it parses
    to a number that is not NaN and not negative, so neither server answers
    a create or update carrying it with the validation error. *)
Theorem price_starting_with_a_digit_is_accepted
    (reply : Cloud.CloudinaryReply) (upload_now now : Z) (id : string)
    (req : ProductRequest) (w : World) (c : ascii) (d : N) (rest : string) :
  f_price (req_body req) = Some (String c rest) ->
  JS.digit_of c = Some d ->
  JS.isNaN (JS.parseFloat (Some (String c rest))) = false
  /\ JS.nonNegative (JS.parseFloat (Some (String c rest))) = true
  /\ ~ ValidationError (Cloud.post_products reply now req w).1
  /\ ~ ValidationError (Local.post_products upload_now now req w).1
  /\ ~ ValidationError (Cloud.put_product reply id req w).1.
Proof.
  intros Hprice Hd.
  destruct (digit_starts_number c d rest Hd) as (m & e & Hparse).
  destruct (roundMV_number false m e) as [Hnan Hpos].
  rewrite <- Hparse in Hnan, Hpos. specialize (Hpos eq_refl).
  split; [exact Hnan|]. split; [exact Hpos|].
  rewrite cloud_post_eq, local_post_eq, cloud_put_eq. simpl.
  rewrite Hprice, Hnan.
  split; [|split]; intros H; apply ValidationError_status in H; revert H;
    destruct (req_image req) as [file|]; simpl;
    try (destruct reply; simpl);
    try (destruct (castObjectId id) as [oid|]; simpl);
    try (destruct (products w !! oid); simpl);
    discriminate.
Qed.

Lemma price_starting_with_a_digit_is_accepted_witness :
  JS.isNaN (JS.parseFloat (Some "12abc")) = false
  /\ JS.nonNegative (JS.parseFloat (Some "12abc")) = true
  /\ ~ ValidationError
       (Cloud.post_products (Cloud.cb_error "unused") 5
          (pen_request (Some "12abc") None) one_pen).1
  /\ ~ ValidationError
       (Local.post_products 4 5 (pen_request (Some "12abc") None) one_pen).1
  /\ ~ ValidationError
       (Cloud.put_product (Cloud.cb_error "unused") id0
          (pen_request (Some "12abc") None) one_pen).1.
Proof.
  apply (price_starting_with_a_digit_is_accepted (Cloud.cb_error "unused") 4 5
           id0 (pen_request (Some "12abc") None) one_pen "1" 1%N "2abc");
    reflexivity.
Defined.

(** X22.  A price written as a minus sign followed by a digit passes the
    check as well, whatever follows: it parses to a number that is not NaN
    and is negative or minus zero, and the servers store it. *)
Theorem negative_prices_are_accepted
    (reply : Cloud.CloudinaryReply) (upload_now now : Z) (id : string)
    (req : ProductRequest) (w : World) (c : ascii) (d : N) (rest : string) :
  f_price (req_body req) = Some (String "-" (String c rest)) ->
  JS.digit_of c = Some d ->
  let v := JS.parseFloat (f_price (req_body req)) in
  JS.isNaN v = false
  /\ (JS.nonNegative v = false \/ v = S754_zero true)
  /\ ~ ValidationError (Cloud.post_products reply now req w).1
  /\ ~ ValidationError (Local.post_products upload_now now req w).1
  /\ ~ ValidationError (Cloud.put_product reply id req w).1
  /\ (req_image req = None ->
      exists oid p,
        Cloud.post_products reply now req w
        = (status_json 201 (JProduct (oid, p)),
           set_products (insert oid p) w)
        /\ Product.price p = Some v).
Proof.
  intros Hprice Hd v. subst v.
  destruct (minus_digit_starts_number c d rest Hd) as (m & e & Hparse).
  rewrite Hprice, Hparse.
  assert (Hsign : JS.isNaN (JS.roundMV true m e) = false
                  /\ (JS.nonNegative (JS.roundMV true m e) = false
                      \/ JS.roundMV true m e = S754_zero true)).
  { destruct (roundMV_number true m e) as [Hnan _]. split; [exact Hnan|].
    revert Hnan. unfold JS.roundMV. destruct m as [|p]; [right; reflexivity|].
    destruct (0 <=? e) eqn:He.
    - apply Z.leb_le in He.
      assert (Hpos : 0 < Z.pos p * 10 ^ e)
        by (apply Z.mul_pos_pos; [lia | apply Z.pow_pos_nonneg; lia]).
      destruct (Z.pos p * 10 ^ e) as [|q|q]; try lia.
      unfold binary_normalize, binary_round. simpl.
      destruct (shl_align _ _ _) as [mz ez]. unfold binary_round_aux.
      destruct (shr_fexp JS.prec JS.emax (Z.pos mz) ez loc_Exact) as [mrs' e'].
      destruct (shr_fexp JS.prec JS.emax _ e' loc_Exact) as [mrs'' e''].
      destruct (shr_m mrs''); [right; reflexivity| |discriminate].
      destruct (e'' <=? JS.emax - JS.prec); left; reflexivity.
    - destruct (Z.div_eucl _ _) as [q r]. unfold binary_round_aux.
      destruct (shr_fexp JS.prec JS.emax q _ _) as [mrs' e'].
      destruct (shr_fexp JS.prec JS.emax _ e' loc_Exact) as [mrs'' e''].
      destruct (shr_m mrs''); [right; reflexivity| |discriminate].
      destruct (e'' <=? JS.emax - JS.prec); left; reflexivity. }
  destruct Hsign as [Hnan Hsign].
  split; [exact Hnan|]. split; [exact Hsign|].
  rewrite cloud_post_eq, local_post_eq, cloud_put_eq. simpl.
  rewrite Hprice, Hparse, Hnan.
  split; [|split; [|split]];
    try (intros H; apply ValidationError_status in H; revert H;
         destruct (req_image req) as [file|]; simpl;
         try (destruct reply; simpl);
         try (destruct (castObjectId id) as [oid|]; simpl);
         try (destruct (products w !! oid); simpl);
         discriminate).
  intros Hfile. rewrite Hfile. unfold created. simpl.
  rewrite ?Hprice, ?Hparse. eexists _, _. split; reflexivity.
Qed.

Lemma negative_prices_are_accepted_witness :
  exists oid p,
    Cloud.post_products (Cloud.cb_error "unused") 5
      (pen_request (Some "-5") None) one_pen
    = (status_json 201 (JProduct (oid, p)), set_products (insert oid p) one_pen)
    /\ Product.price p = Some (JS.parseFloat (Some "-5")).
Proof.
  destruct (negative_prices_are_accepted (Cloud.cb_error "unused") 4 5 id0
              (pen_request (Some "-5") None) one_pen "5" 5%N "" eq_refl eq_refl)
    as (_ & _ & _ & _ & _ & Hstored).
  exact (Hstored eq_refl).
Defined.

(** X23.  A create request whose price field is missing, empty or made of
    white space only (spaces, tabs, line breaks) is answered with the
    validation error on both servers, and no product is stored. *)
Theorem blank_price_is_rejected
    (reply : Cloud.CloudinaryReply) (upload_now now : Z)
    (req : ProductRequest) (w : World) :
  match f_price (req_body req) with
  | None => True
  | Some s => forallb JS.is_ws1 (list_ascii_of_string s) = true
  end ->
  Cloud.post_products reply now req w
    = (status_json 400 (JError "Price must be a valid number"), w)
  /\ ValidationError (Local.post_products upload_now now req w).1
  /\ products (Local.post_products upload_now now req w).2 = products w.
Proof.
  intros Hblank.
  assert (Hnan : JS.isNaN (JS.parseFloat (f_price (req_body req))) = true).
  { destruct (f_price (req_body req)) as [s|]; [|reflexivity].
    unfold JS.parseFloat. rewrite (blank_is_trimmed_away s Hblank).
    reflexivity. }
  rewrite cloud_post_eq, local_post_eq. simpl. rewrite Hnan.
  split; [reflexivity|]. split; [reflexivity|].
  destruct (req_image req); reflexivity.
Qed.

Lemma blank_price_is_rejected_witness :
  Cloud.post_products (Cloud.cb_error "unused") 5
    (pen_request (Some "  ") None) one_pen
  = (status_json 400 (JError "Price must be a valid number"), one_pen).
Proof.
  apply (blank_price_is_rejected (Cloud.cb_error "unused") 4 5
           (pen_request (Some "  ") None) one_pen).
  reflexivity.
Defined.

(** ** Instances of the frame properties *)

Lemma seedAdmin_is_idempotent_witness :
  Cloud.seedAdmin sample_hash one_user = one_user.
Proof.
  destruct (seedAdmin_is_idempotent sample_hash sample_hash one_user)
    as (_ & _ & _ & Hkept & _).
  apply Hkept. exists admin. reflexivity.
Defined.

Lemma update_touches_one_product_witness :
  let out := Cloud.put_product (Cloud.cb_error "unused") id0
               (pen_request (Some "2") None) one_pen in
  exists p, products one_pen !! 0%N = Some p
            /\ Product.date p = 1700000000000.
Proof.
  intros out.
  destruct (update_touches_one_product (Cloud.cb_error "unused") id0
              (pen_request (Some "2") None) one_pen) as (_ & _ & Hframe).
  destruct (Hframe 0%N
              {| Product.name := Some "Pen";
                 Product.description := Some "Blue ink";
                 Product.price := Some (JS.parseFloat (Some "2"));
                 Product.category := Some "stationery";
                 Product.image := Some "https://res.example/products/pen.png";
                 Product.date := 1700000000000 |} eq_refl)
    as (p & Hp & Hdate & _).
  exists p. split; [exact Hp | symmetry; exact Hdate].
Defined.

Lemma create_adds_one_product_witness :
  let out := Cloud.post_products (Cloud.cb_error "unused") 5
               (pen_request (Some "3") None) one_pen in
  products out.2 !! 0%N
  = Some {| Product.name := Some "Pen";
            Product.description := Some "Blue ink";
            Product.price := Some (JS.parseFloat (Some "1.50"));
            Product.category := Some "stationery";
            Product.image := Some "https://res.example/products/pen.png";
            Product.date := 1700000000000 |}.
Proof.
  intros out.
  destruct (create_adds_one_product (Cloud.cb_error "unused") 4 5
              (pen_request (Some "3") None) one_pen)
    as [(_ & Hkept & _) _].
  apply Hkept. reflexivity.
Defined.
